(** * chess_stockfish: a Tk chess board driving python-chess and Stockfish

    Shallow embedding of [chess_stockfish.py] and the properties of its
    click, undo, new-game and engine paths.

    Layout of the development:
    - [chess]: the part of the python-chess interface the script calls.
      Square arithmetic is concrete; the rules of the game are an
      interface ([chess.Rules]) with the laws the proofs rely on
      ([chess.RulesOk]).
    - [ChessGUI]: the application object, one Rocq function per method,
      over explicit state passing.
    - [Canvas]: the items [draw_board] leaves on the canvas.
    - [Conditions]: predicates on the application state.
    - [StandardChess]: an executable instance of the rules, used to run the
      handlers on real games; [Games]: such games.
    - the properties: coordinates, handlers, the instance's laws, then
      clicks, moves, engine turns and the picture. *)

From Stdlib Require Import ZArith List Bool Lia String.
From Stdlib Require Import Floats.PrimFloat Uint63.
Import ListNotations.
Local Open Scope string_scope.
Local Open Scope list_scope.
Local Open Scope Z_scope.

(** ** The python-chess interface used by the script *)

Module chess.

(** Squares are the integers 0..63, a1 = 0, h8 = 63. *)
Definition Square := Z.

(** [chess.WHITE = True], [chess.BLACK = False]. *)
Definition Color := bool.
Definition WHITE : Color := true.
Definition BLACK : Color := false.

Inductive PieceType := PAWN | KNIGHT | BISHOP | ROOK | QUEEN | KING.

Record Piece := { piece_type : PieceType; color : Color }.

(** [chess.Move(from_square, to_square, promotion=None)]. *)
Record Move := {
  from_square : Square;
  to_square : Square;
  promotion : option PieceType
}.

(** [square_file(square) = square & 7]. *)
Definition square_file (sq : Square) : Z := Z.land sq 7.

(** [square_rank(square) = square >> 3]. *)
Definition square_rank (sq : Square) : Z := Z.shiftr sq 3.

(** [square(file_index, rank_index) = rank_index * 8 + file_index]. *)
Definition square (file_index rank_index : Z) : Square :=
  rank_index * 8 + file_index.

(** A call on a mutable object either returns or raises; both leave the
    object in some state. *)
Inductive outcome (A : Type) :=
| Returned (after : A)
| Raised (after : A).
Arguments Returned {A} after.
Arguments Raised {A} after.

(** The [chess.Board] operations the script calls.  The board is an
    external, mutable object; here each operation maps the board value
    before the call to the board value after it. *)
Class Rules := {
  Board : Type;
  (** [Board()] and the value [board.reset()] leaves behind. *)
  starting_board : Board;
  (** [board.turn]. *)
  turn : Board -> Color;
  (** [board.piece_at(sq)]. *)
  piece_at : Board -> Square -> option Piece;
  (** [move in board.legal_moves]. *)
  is_legal : Board -> Move -> bool;
  (** Iteration over [board.legal_moves]. *)
  legal_moves : Board -> list Move;
  (** [board.push(move)]; legality is not checked by the library. *)
  push : Board -> Move -> outcome Board;
  (** [board.pop()]; [None] is the [IndexError] of an empty move stack,
      raised before anything is changed. *)
  pop : Board -> option Board;
  (** [board.peek()]; [None] is the [IndexError] of an empty move stack. *)
  peek : Board -> option Move;
  (** [len(board.move_stack)]: the plies applied since the board was
      created or reset. *)
  ply : Board -> nat;
  is_checkmate : Board -> bool;
  is_stalemate : Board -> bool;
  is_check : Board -> bool;
  is_game_over : Board -> bool
}.

(** What the proofs assume of the library. *)
Class RulesOk (R : Rules) : Prop := {
  (** A fresh or reset board has an empty move stack. *)
  ply_starting_board : ply starting_board = 0%nat;
  (** A push that returns has put one move on the stack. *)
  ply_push : forall b m b', push b m = Returned b' -> ply b' = S (ply b);
  (** [pop] restores the board as it was before the last push. *)
  pop_push : forall b m b', push b m = Returned b' -> pop b' = Some b;
  (** [pop] takes one move off the stack, and raises only on an empty one. *)
  ply_pop : forall b b', pop b = Some b' -> ply b = S (ply b');
  pop_nonempty : forall b, ply b <> 0%nat -> pop b <> None;
  (** [peek] raises only on an empty stack. *)
  peek_nonempty : forall b, ply b <> 0%nat -> peek b <> None;
  (** Pushing a legal move does not raise. *)
  push_legal : forall b m, is_legal b m = true -> exists b', push b m = Returned b';
  (** Every legal move of a pawn to the first or last rank names its
      promotion piece: the bare from-to move is not in [legal_moves]. *)
  pawn_last_rank_promotes : forall b f t c,
    is_legal b {| from_square := f; to_square := t; promotion := None |} = true ->
    piece_at b f = Some {| piece_type := PAWN; color := c |} ->
    square_rank t <> 7 /\ square_rank t <> 0
}.

End chess.

Import chess.

(** ** Helpers of the script *)

Definition BOARD_SIZE : Z := 480.
Definition SQUARE_SIZE : Z := BOARD_SIZE / 8.
Definition ENGINE_THINK_TIME : float := 0x1.999999999999ap-4%float.

(** Square index to (row, col) in 0..7, row 0 at the top. *)
Definition sq_to_rc (sq : Square) (flip : bool) : Z * Z :=
  let row := 7 - square_rank sq in
  let col := square_file sq in
  if flip then (7 - row, 7 - col) else (row, col).

Definition rc_to_sq (row col : Z) (flip : bool) : Square :=
  let '(row, col) := if flip then (7 - row, 7 - col) else (row, col) in
  let rank := 7 - row in
  let file := col in
  square file rank.


(** ** The application object

    One record for the attributes of [ChessGUI], one function per method.
    The canvas is write-only and is left out; the status line is kept.
    [self.after(ms, f)] adds [f] to [scheduled]; the timer fires entries of
    it later.  A started worker thread is counted in [workers]; its body
    [think_and_move] is one step, taken when the engine answers. *)

Module ChessGUI.

Section Model.
Context {R : Rules}.

(** Entries of [self.move_stack]: [(move, self.board.peek())] for a move
    made by clicks, [(result.move, None)] for an engine move. *)
Definition HistoryEntry : Type := Move * option Move.

Inductive Callback := engine_move_if_needed_cb | draw_board_cb.

Record State := {
  board : Board;
  flip : bool;
  selected_sq : option Square;
  legal_targets : list Square;
  move_stack : list HistoryEntry;
  engine : bool;
  engine_side : option Color;
  engine_think_time : float;
  status_var : string;
  scheduled : list Callback;
  workers : nat
}.

Definition set_board (s : State) (b : Board) : State :=
  {| board := b; flip := flip s; selected_sq := selected_sq s;
     legal_targets := legal_targets s; move_stack := move_stack s;
     engine := engine s; engine_side := engine_side s;
     engine_think_time := engine_think_time s; status_var := status_var s;
     scheduled := scheduled s; workers := workers s |}.

Definition set_flip (s : State) (f : bool) : State :=
  {| board := board s; flip := f; selected_sq := selected_sq s;
     legal_targets := legal_targets s; move_stack := move_stack s;
     engine := engine s; engine_side := engine_side s;
     engine_think_time := engine_think_time s; status_var := status_var s;
     scheduled := scheduled s; workers := workers s |}.

(** [self.selected_sq = sel; self.legal_targets = targets]. *)
Definition set_selection (s : State) (sel : option Square) (targets : list Square) : State :=
  {| board := board s; flip := flip s; selected_sq := sel;
     legal_targets := targets; move_stack := move_stack s;
     engine := engine s; engine_side := engine_side s;
     engine_think_time := engine_think_time s; status_var := status_var s;
     scheduled := scheduled s; workers := workers s |}.

Definition set_move_stack (s : State) (h : list HistoryEntry) : State :=
  {| board := board s; flip := flip s; selected_sq := selected_sq s;
     legal_targets := legal_targets s; move_stack := h;
     engine := engine s; engine_side := engine_side s;
     engine_think_time := engine_think_time s; status_var := status_var s;
     scheduled := scheduled s; workers := workers s |}.

Definition set_engine (s : State) (e : bool) : State :=
  {| board := board s; flip := flip s; selected_sq := selected_sq s;
     legal_targets := legal_targets s; move_stack := move_stack s;
     engine := e; engine_side := engine_side s;
     engine_think_time := engine_think_time s; status_var := status_var s;
     scheduled := scheduled s; workers := workers s |}.

Definition set_engine_side (s : State) (c : option Color) : State :=
  {| board := board s; flip := flip s; selected_sq := selected_sq s;
     legal_targets := legal_targets s; move_stack := move_stack s;
     engine := engine s; engine_side := c;
     engine_think_time := engine_think_time s; status_var := status_var s;
     scheduled := scheduled s; workers := workers s |}.

Definition set_engine_think_time (s : State) (t : float) : State :=
  {| board := board s; flip := flip s; selected_sq := selected_sq s;
     legal_targets := legal_targets s; move_stack := move_stack s;
     engine := engine s; engine_side := engine_side s;
     engine_think_time := t; status_var := status_var s;
     scheduled := scheduled s; workers := workers s |}.

Definition set_status (s : State) (msg : string) : State :=
  {| board := board s; flip := flip s; selected_sq := selected_sq s;
     legal_targets := legal_targets s; move_stack := move_stack s;
     engine := engine s; engine_side := engine_side s;
     engine_think_time := engine_think_time s; status_var := msg;
     scheduled := scheduled s; workers := workers s |}.

(** [self.after(ms, cb)]. *)
Definition after (s : State) (cb : Callback) : State :=
  {| board := board s; flip := flip s; selected_sq := selected_sq s;
     legal_targets := legal_targets s; move_stack := move_stack s;
     engine := engine s; engine_side := engine_side s;
     engine_think_time := engine_think_time s; status_var := status_var s;
     scheduled := scheduled s ++ [cb]; workers := workers s |}.

Definition set_scheduled (s : State) (q : list Callback) : State :=
  {| board := board s; flip := flip s; selected_sq := selected_sq s;
     legal_targets := legal_targets s; move_stack := move_stack s;
     engine := engine s; engine_side := engine_side s;
     engine_think_time := engine_think_time s; status_var := status_var s;
     scheduled := q; workers := workers s |}.

Definition set_workers (s : State) (n : nat) : State :=
  {| board := board s; flip := flip s; selected_sq := selected_sq s;
     legal_targets := legal_targets s; move_stack := move_stack s;
     engine := engine s; engine_side := engine_side s;
     engine_think_time := engine_think_time s; status_var := status_var s;
     scheduled := scheduled s; workers := n |}.

(** ["White" if self.board.turn == chess.WHITE else "Black"]. *)
Definition side_name (c : Color) : string :=
  if Bool.eqb c WHITE then "White" else "Black".

(** [draw_board]: of its effects only the status line is state. *)
Definition draw_board (s : State) : State :=
  let b := board s in
  if is_checkmate b then
    let winner := if Bool.eqb (turn b) BLACK then "White" else "Black" in
    set_status s ("Checkmate — " ++ winner ++ " wins")%string
  else if is_stalemate b then set_status s "Stalemate"
  else if is_check b then set_status s (side_name (turn b) ++ " to move — Check!")%string
  else set_status s (side_name (turn b) ++ " to move")%string.

(** [__init__]. *)
Definition init : State :=
  draw_board
    {| board := starting_board; flip := false; selected_sq := None;
       legal_targets := []; move_stack := [];
       engine := false; engine_side := None;
       engine_think_time := ENGINE_THINK_TIME; status_var := "White to move";
       scheduled := []; workers := 0%nat |}.

(** [start_engine]; [launched] tells whether [popen_uci] returns a handle.
    [STOCKFISH_PATH] is never empty. *)
Definition start_engine (s : State) (launched : bool) : State :=
  if engine s then s
  else if launched then set_engine s true
  else set_engine s false.

Definition stop_engine (s : State) : State :=
  if engine s then set_engine s false else s.

Definition new_game (s : State) : State :=
  let s := set_board s starting_board in
  let s := set_move_stack s [] in
  let s := set_selection s None [] in
  let s := set_status s "White to move" in
  let s := draw_board s in
  match engine_side s with
  | Some c => if Bool.eqb c WHITE then after s engine_move_if_needed_cb else s
  | None => s
  end.

Definition undo_move (s : State) : State :=
  if (List.length (move_stack s) =? 0)%nat then s
  else
    match pop (board s) with
    | None => s
    | Some b =>
        let s := set_board s b in
        let s := set_move_stack s (removelast (move_stack s)) in
        let s := set_selection s None [] in
        let s := set_status s (side_name (turn (board s)) ++ " to move")%string in
        draw_board s
    end.

Definition flip_board (s : State) : State :=
  draw_board (set_flip s (negb (flip s))).

(** [ask_play_engine]; [yes] is the answer to the question box, [time] the
    answer to the think-time dialog. *)
Definition ask_play_engine (s : State) (yes : bool) (time : option float)
    (launched : bool) : State :=
  let s := if yes then set_engine_side s (Some BLACK)
           else set_engine_side s (Some WHITE) in
  let s := match time with
           | Some t => set_engine_think_time s t
           | None => s
           end in
  let s := start_engine s launched in
  match engine_side s with
  | Some c =>
      if Bool.eqb c WHITE && Bool.eqb (turn (board s)) WHITE
      then after s engine_move_if_needed_cb else s
  | None => s
  end.

Definition on_close (s : State) : State := stop_engine s.

Definition is_promotion_move (s : State) (from_sq to_sq : Square) : bool :=
  match piece_at (board s) from_sq with
  | None => false
  | Some piece =>
      match piece_type piece with
      | PAWN =>
          let to_rank := square_rank to_sq in
          if (Bool.eqb (color piece) WHITE && (to_rank =? 7))
             || (Bool.eqb (color piece) BLACK && (to_rank =? 0))
          then true else false
      | _ => false
      end
  end.

(** [push_move]: an exception of [push] or [peek] ends the [try] body
    where it is raised. *)
Definition push_move (s : State) (move : Move) : State :=
  match push (board s) move with
  | Raised b => set_board s b
  | Returned b =>
      let s := set_board s b in
      match peek (board s) with
      | None => s
      | Some top =>
          let s := set_move_stack s (move_stack s ++ [(move, Some top)]) in
          let s := set_selection s None [] in
          draw_board s
      end
  end.

(** [piece is not None and piece.color == self.board.turn]. *)
Definition own_piece (s : State) (piece : option Piece) : bool :=
  match piece with
  | Some p => Bool.eqb (color p) (turn (board s))
  | None => false
  end.

(** [[m.to_square for m in self.board.legal_moves if m.from_square == sq]]. *)
Definition targets_from (s : State) (sq : Square) : list Square :=
  map to_square (filter (fun m => from_square m =? sq) (legal_moves (board s))).

(** [self.engine_side is not None and self.board.turn == self.engine_side]. *)
Definition engine_to_move (s : State) : bool :=
  match engine_side s with
  | Some c => Bool.eqb (turn (board s)) c
  | None => false
  end.

(** [on_click]; [x], [y] are [event.x], [event.y]. *)
Definition on_click (s : State) (x y : Z) : State :=
  let col := x / SQUARE_SIZE in
  let row := y / SQUARE_SIZE in
  if (col <? 0) || (col >? 7) || (row <? 0) || (row >? 7) then s
  else
    let sq := rc_to_sq row col (flip s) in
    if engine_to_move s then s
    else
      let piece := piece_at (board s) sq in
      match selected_sq s with
      | None =>
          if own_piece s piece
          then draw_board (set_selection s (Some sq) (targets_from s sq))
          else s
      | Some sel =>
          let move := {| from_square := sel; to_square := sq; promotion := None |} in
          let s :=
            if is_legal (board s) {| from_square := sel; to_square := sq; promotion := None |}
            then
              let is_promo := is_promotion_move s sel sq in
              let move :=
                if is_promo
                then {| from_square := sel; to_square := sq; promotion := Some QUEEN |}
                else move in
              push_move s move
            else if own_piece s piece
            then set_selection s (Some sq) (targets_from s sq)
            else set_selection s None [] in
          let s := draw_board s in
          after s engine_move_if_needed_cb
      end.

(** [engine_move_if_needed] up to the start of the worker thread. *)
Definition engine_move_if_needed (s : State) (launched : bool) : State :=
  match engine_side s with
  | None => s
  | Some side =>
      if is_game_over (board s) then s
      else if negb (Bool.eqb (turn (board s)) side) then s
      else
        let s := start_engine s launched in
        if negb (engine s) then s
        else set_workers s (S (workers s))
  end.

(** What [self.engine.play(self.board, limit)] does in the worker. *)
Inductive PlayResult :=
| play_raises
| play_returns_None
| play_returns (move : option Move).

(** [think_and_move], the body of the worker thread. *)
Definition think_and_move (s : State) (r : PlayResult) : State :=
  match r with
  | play_raises => s
  | play_returns_None => s
  | play_returns None => s
  | play_returns (Some move) =>
      match push (board s) move with
      | Raised b => set_board s b
      | Returned b =>
          let s := set_board s b in
          let s := set_move_stack s (move_stack s ++ [(move, None)]) in
          after s draw_board_cb
      end
  end.

(** The pixel at which [draw_board] centres the glyph of [sq]. *)
Definition square_centre (s : State) (sq : Square) : Z * Z :=
  let rc := sq_to_rc sq (flip s) in
  (snd rc * SQUARE_SIZE + SQUARE_SIZE / 2, fst rc * SQUARE_SIZE + SQUARE_SIZE / 2).

(** A click on the middle of [sq]. *)
Definition click_square (s : State) (sq : Square) : State :=
  on_click s (fst (square_centre s sq)) (snd (square_centre s sq)).

(** *** The event loop *)

Inductive Event :=
| NewGame
| Undo
| FlipBoard
| PlayVsEngine (yes : bool) (time : option float) (launched : bool)
| Click (x y : Z)
| Timer (i : nat) (launched : bool)
| WorkerDone (r : PlayResult)
| Close.

(** The [i]-th scheduled callback, and the queue without it. *)
Fixpoint take_callback (q : list Callback) (i : nat) : option (Callback * list Callback) :=
  match q, i with
  | [], _ => None
  | cb :: q', O => Some (cb, q')
  | cb :: q', S i' =>
      match take_callback q' i' with
      | Some (c, rest) => Some (c, cb :: rest)
      | None => None
      end
  end.

Definition run_callback (s : State) (cb : Callback) (launched : bool) : State :=
  match cb with
  | engine_move_if_needed_cb => engine_move_if_needed s launched
  | draw_board_cb => draw_board s
  end.

Definition step (s : State) (e : Event) : State :=
  match e with
  | NewGame => new_game s
  | Undo => undo_move s
  | FlipBoard => flip_board s
  | PlayVsEngine yes time launched => ask_play_engine s yes time launched
  | Click x y => on_click s x y
  | Timer i launched =>
      match take_callback (scheduled s) i with
      | Some (cb, rest) => run_callback (set_scheduled s rest) cb launched
      | None => s
      end
  | WorkerDone r =>
      match workers s with
      | O => s
      | S n => think_and_move (set_workers s n) r
      end
  | Close => on_close s
  end.

Definition run (s : State) (es : list Event) : State := fold_left step es s.


(** *** Games

    A move reaches the board either from the clicks ([push_move]) or from
    the worker thread ([think_and_move]). *)

Inductive Mover := Human | Engine.

Definition apply_move (s : State) (a : Mover * Move) : State :=
  match fst a with
  | Human => push_move s (snd a)
  | Engine => think_and_move s (play_returns (Some (snd a)))
  end.

(** Each move of the line is legal where it is played. *)
Fixpoint legal_line (b : Board) (ms : list Move) : bool :=
  match ms with
  | [] => true
  | m :: ms' =>
      is_legal b m
      && match push b m with
         | Returned b' => legal_line b' ms'
         | Raised _ => false
         end
  end.

(** The engine gave no move: [play] raised, returned [None], or returned a
    result without a move. *)
Definition no_move (r : PlayResult) : bool :=
  match r with
  | play_returns (Some _) => false
  | _ => true
  end.

(** [board.push(move)] returns. *)
Definition push_returns (b : Board) (m : Move) : bool :=
  match push b m with
  | Returned _ => true
  | Raised _ => false
  end.

End Model.

Arguments State R : clear implicits.

End ChessGUI.

(** ** What [draw_board] puts on the canvas

    After [self.canvas.delete("all")] the canvas holds exactly the items
    the four loops of [draw_board] create, in this order: the 64 squares,
    a dot per legal target, the outline of the selected square, a glyph
    per piece.  Tag strings are kept as their parts. *)

Module Canvas.
Import ChessGUI.

Definition LIGHT_COLOR : string := "#F0D9B5".
Definition DARK_COLOR : string := "#B58863".
Definition HIGHLIGHT_COLOR : string := "#9CDCFF".
Definition SELECT_COLOR : string := "#FFFB7D".

Definition white (t : PieceType) : Piece := {| piece_type := t; color := WHITE |}.
Definition black (t : PieceType) : Piece := {| piece_type := t; color := BLACK |}.

(** [UNICODE_PIECES]; [Piece.from_symbol] gives White for the upper-case
    letters and Black for the lower-case ones. *)
Definition UNICODE_PIECES : list (Piece * string) :=
  [ (white PAWN, "♙"); (white KNIGHT, "♘"); (white BISHOP, "♗");
    (white ROOK, "♖"); (white QUEEN, "♕"); (white KING, "♔");
    (black PAWN, "♟"); (black KNIGHT, "♞"); (black BISHOP, "♝");
    (black ROOK, "♜"); (black QUEEN, "♛"); (black KING, "♚") ].

Definition same_type (a b : PieceType) : bool :=
  match a, b with
  | PAWN, PAWN | KNIGHT, KNIGHT | BISHOP, BISHOP
  | ROOK, ROOK | QUEEN, QUEEN | KING, KING => true
  | _, _ => false
  end.

(** Equality of dictionary keys: [Piece] compares type and colour. *)
Definition same_piece (a b : Piece) : bool :=
  same_type (piece_type a) (piece_type b) && Bool.eqb (color a) (color b).

(** [UNICODE_PIECES.get(piece, '?')]. *)
Definition symbol_of (piece : Piece) : string :=
  match find (fun entry => same_piece (fst entry) piece) UNICODE_PIECES with
  | Some entry => snd entry
  | None => "?"
  end.

(** The parts of [f"sq_{r}_{c}"] and [f"piece_{sq}"]. *)
Inductive Tag :=
| sq_tag (r c : Z)
| piece_tag (sq : Square).

Inductive Item :=
| create_rectangle (x1 y1 x2 y2 : Z) (fill outline : string) (width : Z) (tags : option Tag)
| create_oval (x1 y1 x2 y2 : float) (fill outline : string)
| create_text (x y : Z) (text : string) (font_size : Z) (tags : Tag).

(** [range(n)]. *)
Definition range (n : nat) : list Z := map Z.of_nat (seq 0 n).

(** The float of a small non-negative integer, as Python makes it when an
    [int] meets a [float]. *)
Definition to_float (z : Z) : float := PrimFloat.of_uint63 (Uint63.of_Z z).

(** [LIGHT_COLOR if (r + c) % 2 == 0 else DARK_COLOR]. *)
Definition cell_color (r c : Z) : string :=
  let light := (r + c) mod 2 =? 0 in
  if light then LIGHT_COLOR else DARK_COLOR.

Definition square_items : list Item :=
  flat_map (fun r =>
              map (fun c =>
                     let x1 := c * SQUARE_SIZE in
                     let y1 := r * SQUARE_SIZE in
                     let x2 := x1 + SQUARE_SIZE in
                     let y2 := y1 + SQUARE_SIZE in
                     create_rectangle x1 y1 x2 y2 (cell_color r c) (cell_color r c) 1
                                      (Some (sq_tag r c)))
                  (range 8))
           (range 8).

Section Draw.
Context {R : Rules}.

Definition highlight_items (s : State R) : list Item :=
  map (fun t =>
         let rc := sq_to_rc t (flip s) in
         let x1 := snd rc * SQUARE_SIZE in
         let y1 := fst rc * SQUARE_SIZE in
         let x2 := x1 + SQUARE_SIZE in
         let y2 := y1 + SQUARE_SIZE in
         let inset := PrimFloat.mul (to_float SQUARE_SIZE) 0.25%float in
         create_oval (PrimFloat.add (to_float x1) inset) (PrimFloat.add (to_float y1) inset)
                     (PrimFloat.sub (to_float x2) inset) (PrimFloat.sub (to_float y2) inset)
                     HIGHLIGHT_COLOR "")
      (legal_targets s).

Definition selection_items (s : State R) : list Item :=
  match selected_sq s with
  | None => []
  | Some sq =>
      let rc := sq_to_rc sq (flip s) in
      let x1 := snd rc * SQUARE_SIZE in
      let y1 := fst rc * SQUARE_SIZE in
      let x2 := x1 + SQUARE_SIZE in
      let y2 := y1 + SQUARE_SIZE in
      [create_rectangle x1 y1 x2 y2 "" SELECT_COLOR 3 None]
  end.

(** The glyph of the piece on [sq], if any. *)
Definition piece_item (s : State R) (sq : Square) : list Item :=
  match piece_at (board s) sq with
  | None => []
  | Some piece =>
      let rc := sq_to_rc sq (flip s) in
      let x := snd rc * SQUARE_SIZE + SQUARE_SIZE / 2 in
      let y := fst rc * SQUARE_SIZE + SQUARE_SIZE / 2 in
      [create_text x y (symbol_of piece) (SQUARE_SIZE / 2) (piece_tag sq)]
  end.

(** [for sq in chess.SQUARES]. *)
Definition piece_items (s : State R) : list Item := flat_map (piece_item s) (range 64).

Definition canvas (s : State R) : list Item :=
  square_items ++ highlight_items s ++ selection_items s ++ piece_items s.

End Draw.

End Canvas.

(** ** Conditions on the application state *)

Module Conditions.
Import ChessGUI.

Section WithRules.
Context {R : Rules}.

(** The status line [draw_board] writes for a board. *)
Definition status_of (b : Board) : string :=
  if is_checkmate b then
    ("Checkmate — " ++ (if Bool.eqb (turn b) BLACK then "White" else "Black") ++ " wins")%string
  else if is_stalemate b then "Stalemate"
  else if is_check b then (side_name (turn b) ++ " to move — Check!")%string
  else (side_name (turn b) ++ " to move")%string.

(** The status line says what a redraw would say. *)
Definition status_fresh (s : State R) : Prop := status_var s = status_of (board s).

(** The selection fits the board: nothing selected and nothing marked, or
    a square of the grid holding a piece of the side to move, with exactly
    its destinations marked. *)
Definition selection_sound (s : State R) : Prop :=
  match selected_sq s with
  | None => legal_targets s = []
  | Some sq =>
      0 <= sq < 64 /\
      own_piece s (piece_at (board s) sq) = true /\
      legal_targets s = targets_from s sq
  end.

(** The event is a worker handing over a move. *)
Definition hands_over_move (e : Event) : bool :=
  match e with
  | WorkerDone (play_returns (Some _)) => true
  | _ => false
  end.

(** It is the engine's turn, no callback is pending and no worker runs. *)
Definition stalled (s : State R) : Prop :=
  engine_to_move s = true /\ scheduled s = [] /\ workers s = 0%nat.

(** Events other than the three buttons New Game, Undo, Play vs Engine. *)
Definition passive (e : Event) : bool :=
  match e with
  | NewGame | Undo | PlayVsEngine _ _ _ => false
  | _ => true
  end.

(** When the event is a running worker handing over a move, the push of
    that move returns. *)
Definition handover_returns (s : State R) (e : Event) : bool :=
  match e with
  | WorkerDone (play_returns (Some m)) =>
      match workers s with
      | O => true
      | S _ => push_returns (board s) m
      end
  | _ => true
  end.

(** Along the run, every move a worker hands over is pushed without an
    exception. *)
Fixpoint handovers_return (s : State R) (es : list Event) : bool :=
  match es with
  | [] => true
  | e :: es' => handover_returns s e && handovers_return (step s e) es'
  end.

(** When the event is a running worker handing over a move, no square is
    selected at that moment. *)
Definition quiet_handover (s : State R) (e : Event) : bool :=
  match e with
  | WorkerDone (play_returns (Some _)) =>
      match workers s, selected_sq s with
      | S _, Some _ => false
      | _, _ => true
      end
  | _ => true
  end.

Fixpoint quiet_handovers (s : State R) (es : list Event) : bool :=
  match es with
  | [] => true
  | e :: es' => quiet_handover s e && quiet_handovers (step s e) es'
  end.

(** No event of the list is a worker handing over a move. *)
Definition no_handover (es : list Event) : bool :=
  forallb (fun e => negb (hands_over_move e)) es.

(** The engine process runs only for a user who asked for it. *)
Definition engine_wanted (s : State R) : Prop :=
  engine s = true -> engine_side s <> None.

End WithRules.

End Conditions.

(** ** An executable instance of the rules

    Standard chess as python-chess's [Board] plays it (not Chess960, no
    variants): piece placement, side to move, castling rights, en-passant
    square, move counters and the stack of earlier positions.  Move
    generation follows the library's order of generation. *)

Module StandardChess.

Record Position := {
  placement : list (option Piece);
  side_to_move : Color;
  castling_rights : list Square;
  ep_square : option Square;
  halfmove_clock : Z;
  fullmove_number : Z
}.

(** [move_stack] and [_stack] of the library, zipped, latest first. *)
Record BoardState := {
  position : Position;
  stack : list (Position * Move)
}.

Definition A1 : Square := 0.
Definition C1 : Square := 2.
Definition D1 : Square := 3.
Definition E1 : Square := 4.
Definition F1 : Square := 5.
Definition G1 : Square := 6.
Definition H1 : Square := 7.
Definition A8 : Square := 56.
Definition C8 : Square := 58.
Definition D8 : Square := 59.
Definition E8 : Square := 60.
Definition F8 : Square := 61.
Definition G8 : Square := 62.
Definition H8 : Square := 63.

Definition SQUARES : list Square := map Z.of_nat (seq 0 64).
Definition SQUARES_REVERSED : list Square := rev SQUARES.

Definition piece_type_eqb (a b : PieceType) : bool :=
  match a, b with
  | PAWN, PAWN | KNIGHT, KNIGHT | BISHOP, BISHOP
  | ROOK, ROOK | QUEEN, QUEEN | KING, KING => true
  | _, _ => false
  end.

Definition piece_eqb (a b : Piece) : bool :=
  piece_type_eqb (piece_type a) (piece_type b) && Bool.eqb (color a) (color b).

Definition option_eqb {A : Type} (eqb : A -> A -> bool) (a b : option A) : bool :=
  match a, b with
  | Some x, Some y => eqb x y
  | None, None => true
  | _, _ => false
  end.

(** Two lists agree entry by entry. *)
Fixpoint same_entries {A : Type} (same : A -> A -> bool) (xs ys : list A) : bool :=
  match xs with
  | [] => match ys with [] => true | _ :: _ => false end
  | x :: xs' =>
      match ys with
      | [] => false
      | y :: ys' => same x y && same_entries same xs' ys'
      end
  end.

Definition move_eqb (a b : Move) : bool :=
  (from_square a =? from_square b) && (to_square a =? to_square b)
  && option_eqb piece_type_eqb (promotion a) (promotion b).

Definition mem (sq : Square) (l : list Square) : bool := existsb (Z.eqb sq) l.

Definition on_grid (f r : Z) : bool :=
  (0 <=? f) && (f <=? 7) && (0 <=? r) && (r <=? 7).

Definition valid_square (sq : Square) : bool := (0 <=? sq) && (sq <? 64).

Definition piece_at (p : Position) (sq : Square) : option Piece :=
  if valid_square sq then nth (Z.to_nat sq) (placement p) None else None.

Fixpoint update {A : Type} (l : list A) (n : nat) (v : A) : list A :=
  match l, n with
  | [], _ => []
  | _ :: l', O => v :: l'
  | x :: l', S n' => x :: update l' n' v
  end.

Definition put (pl : list (option Piece)) (sq : Square) (v : option Piece) :=
  if valid_square sq then update pl (Z.to_nat sq) v else pl.

Definition with_placement (p : Position) (pl : list (option Piece)) : Position :=
  {| placement := pl; side_to_move := side_to_move p;
     castling_rights := castling_rights p; ep_square := ep_square p;
     halfmove_clock := halfmove_clock p; fullmove_number := fullmove_number p |}.

Definition has_piece (p : Position) (sq : Square) (t : PieceType) (c : Color) : bool :=
  option_eqb piece_eqb (piece_at p sq) (Some {| piece_type := t; color := c |}).

Definition occupied (p : Position) (sq : Square) : bool :=
  match piece_at p sq with Some _ => true | None => false end.

Definition occupied_co (p : Position) (c : Color) (sq : Square) : bool :=
  match piece_at p sq with Some x => Bool.eqb (color x) c | None => false end.

Definition is_type (p : Position) (t : PieceType) (sq : Square) : bool :=
  match piece_at p sq with Some x => piece_type_eqb (piece_type x) t | None => false end.

(** Squares reached from [sq] by the given (file, rank) offsets. *)
Definition shifted (sq : Square) (deltas : list (Z * Z)) : list Square :=
  flat_map (fun d =>
              let f := square_file sq + fst d in
              let r := square_rank sq + snd d in
              if on_grid f r then [square f r] else []) deltas.

(** Squares along one direction up to and including the first occupied one. *)
Fixpoint ray (p : Position) (f r df dr : Z) (fuel : nat) : list Square :=
  match fuel with
  | O => []
  | S fuel' =>
      let f' := f + df in
      let r' := r + dr in
      if on_grid f' r' then
        if occupied p (square f' r') then [square f' r']
        else square f' r' :: ray p f' r' df dr fuel'
      else []
  end.

Definition rays (p : Position) (sq : Square) (dirs : list (Z * Z)) : list Square :=
  flat_map (fun d => ray p (square_file sq) (square_rank sq) (fst d) (snd d) 7) dirs.

Definition KNIGHT_DELTAS : list (Z * Z) :=
  [(1, 2); (2, 1); (2, -1); (1, -2); (-1, -2); (-2, -1); (-2, 1); (-1, 2)].
Definition KING_DELTAS : list (Z * Z) :=
  [(1, 0); (1, 1); (0, 1); (-1, 1); (-1, 0); (-1, -1); (0, -1); (1, -1)].
Definition DIAGONALS : list (Z * Z) := [(1, 1); (-1, 1); (-1, -1); (1, -1)].
Definition LINES : list (Z * Z) := [(1, 0); (0, 1); (-1, 0); (0, -1)].

(** [BB_PAWN_ATTACKS[c][sq]]. *)
Definition pawn_attacks (c : Color) (sq : Square) : list Square :=
  shifted sq (if c then [(-1, 1); (1, 1)] else [(-1, -1); (1, -1)]).

(** [attacks_mask(sq)]. *)
Definition attacks (p : Position) (sq : Square) : list Square :=
  match piece_at p sq with
  | None => []
  | Some x =>
      match piece_type x with
      | PAWN => pawn_attacks (color x) sq
      | KNIGHT => shifted sq KNIGHT_DELTAS
      | KING => shifted sq KING_DELTAS
      | BISHOP => rays p sq DIAGONALS
      | ROOK => rays p sq LINES
      | QUEEN => rays p sq (DIAGONALS ++ LINES)
      end
  end.

(** [scan_reversed]: the squares of a set from h8 down to a1. *)
Definition scan_reversed (l : list Square) : list Square :=
  filter (fun sq => mem sq l) SQUARES_REVERSED.

(** [is_attacked_by(c, sq)]. *)
Definition is_attacked_by (p : Position) (c : Color) (sq : Square) : bool :=
  existsb (fun s => occupied_co p c s && mem sq (attacks p s)) SQUARES.

(** [king(c)]. *)
Definition king (p : Position) (c : Color) : option Square :=
  find (fun sq => has_piece p sq KING c) SQUARES_REVERSED.

Definition is_check (p : Position) : bool :=
  match king p (side_to_move p) with
  | Some k => is_attacked_by p (negb (side_to_move p)) k
  | None => false
  end.

(** [clean_castling_rights()] for standard chess. *)
Definition clean_castling_rights (p : Position) : list Square :=
  filter (fun sq =>
            (mem sq [A1; H1] && has_piece p sq ROOK WHITE && has_piece p E1 KING WHITE)
            || (mem sq [A8; H8] && has_piece p sq ROOK BLACK && has_piece p E8 KING BLACK))
         (castling_rights p).

Definition bare (f t : Square) : Move :=
  {| from_square := f; to_square := t; promotion := None |}.

(** [_from_chess960(False, f, t, promotion)]: king-takes-rook castling
    written as the king's two-square move. *)
Definition from_chess960 (p : Position) (m : Move) : Move :=
  match promotion m with
  | Some _ => m
  | None =>
      let f := from_square m in
      let t := to_square m in
      if (f =? E1) && is_type p KING E1 then
        if t =? H1 then bare E1 G1 else if t =? A1 then bare E1 C1 else m
      else if (f =? E8) && is_type p KING E8 then
        if t =? H8 then bare E8 G8 else if t =? A8 then bare E8 C8 else m
      else m
  end.

(** [_to_chess960(move)]. *)
Definition to_chess960 (p : Position) (m : Move) : Move :=
  let f := from_square m in
  let t := to_square m in
  if (f =? E1) && is_type p KING E1 then
    if (t =? G1) && negb (is_type p ROOK G1) then bare E1 H1
    else if (t =? C1) && negb (is_type p ROOK C1) then bare E1 A1
    else m
  else if (f =? E8) && is_type p KING E8 then
    if (t =? G8) && negb (is_type p ROOK G8) then bare E8 H8
    else if (t =? C8) && negb (is_type p ROOK C8) then bare E8 A8
    else m
  else m.

(** [not move]: the null move a1a1. *)
Definition is_null (m : Move) : bool :=
  (from_square m =? 0) && (to_square m =? 0)
  && match promotion m with None => true | Some _ => false end.

(** [is_zeroing(move)]: a pawn or an opposing piece on either end. *)
Definition is_zeroing (p : Position) (m : Move) : bool :=
  let f := from_square m in
  let t := to_square m in
  let them := negb (side_to_move p) in
  if f =? t then false
  else is_type p PAWN f || is_type p PAWN t || occupied_co p them f || occupied_co p them t.

Definition without_rank (r : Z) (rights : list Square) : list Square :=
  filter (fun sq => negb (square_rank sq =? r)) rights.

(** The position part of [push(move)].  The library raises (an assertion)
    when the origin square is empty, after the counters were touched. *)
Definition push_position (p : Position) (m0 : Move) : outcome Position :=
  let move := to_chess960 p m0 in
  let us := side_to_move p in
  let rights := clean_castling_rights p in
  let ep := ep_square p in
  let fm := if us then fullmove_number p else fullmove_number p + 1 in
  if is_null move then
    Returned {| placement := placement p; side_to_move := negb us;
                castling_rights := rights; ep_square := None;
                halfmove_clock := halfmove_clock p + 1; fullmove_number := fm |}
  else
    let hm := if is_zeroing p move then 0 else halfmove_clock p + 1 in
    let f := from_square move in
    let t := to_square move in
    match piece_at p f with
    | None =>
        Raised {| placement := placement p; side_to_move := us;
                  castling_rights := rights; ep_square := None;
                  halfmove_clock := hm; fullmove_number := fm |}
    | Some x =>
        let moved := piece_type x in
        let pl := put (placement p) f None in
        let captured := piece_at (with_placement p pl) t in
        let rights := filter (fun sq => negb (sq =? t) && negb (sq =? f)) rights in
        let rights :=
          if piece_type_eqb moved KING then without_rank (if us then 0 else 7) rights
          else if option_eqb piece_type_eqb (option_map piece_type captured) (Some KING) then
            if us && (square_rank t =? 7) then without_rank 7 rights
            else if negb us && (square_rank t =? 0) then without_rank 0 rights
            else rights
          else rights in
        let diff := t - f in
        let pawn_case :=
          if piece_type_eqb moved PAWN then
            if (diff =? 16) && (square_rank f =? 1) then (Some (f + 8), pl)
            else if (diff =? -16) && (square_rank f =? 6) then (Some (f - 8), pl)
            else if option_eqb Z.eqb (Some t) ep
                    && ((Z.abs diff =? 7) || (Z.abs diff =? 9))
                    && match captured with None => true | Some _ => false end
            then (None, put pl (t + (if us then -8 else 8)) None)
            else (None, pl)
          else (None, pl) in
        let new_ep := fst pawn_case in
        let pl := snd pawn_case in
        let placed := match promotion move with Some k => k | None => moved end in
        let castling := piece_type_eqb placed KING && occupied_co (with_placement p pl) us t in
        let pl :=
          if castling then
            let a_side := square_file t <? square_file f in
            let pl := put (put pl f None) t None in
            if a_side then
              put (put pl (if us then C1 else C8) (Some {| piece_type := KING; color := us |}))
                  (if us then D1 else D8) (Some {| piece_type := ROOK; color := us |})
            else
              put (put pl (if us then G1 else G8) (Some {| piece_type := KING; color := us |}))
                  (if us then F1 else F8) (Some {| piece_type := ROOK; color := us |})
          else put pl t (Some {| piece_type := placed; color := us |}) in
        Returned {| placement := pl; side_to_move := negb us;
                    castling_rights := rights; ep_square := new_ep;
                    halfmove_clock := hm; fullmove_number := fm |}
    end.

(** *** Move generation *)

(** A pawn move to rank 1 or 8 is generated once per promotion piece. *)
Definition promotions (f t : Square) : list Move :=
  if (square_rank t =? 0) || (square_rank t =? 7)
  then map (fun k => {| from_square := f; to_square := t; promotion := Some k |})
           [QUEEN; ROOK; BISHOP; KNIGHT]
  else [bare f t].

Definition piece_moves (p : Position) : list Move :=
  let us := side_to_move p in
  flat_map (fun f =>
              if occupied_co p us f && negb (is_type p PAWN f)
              then map (bare f)
                       (filter (fun t => negb (occupied_co p us t))
                               (scan_reversed (attacks p f)))
              else [])
           SQUARES_REVERSED.

Definition castling_moves (p : Position) : list Move :=
  let us := side_to_move p in
  let them := negb us in
  let k := if us then E1 else E8 in
  let free := fun sq => negb (occupied p sq) in
  let calm := fun sq => negb (is_attacked_by p them sq) in
  if has_piece p k KING us then
    flat_map (fun rook =>
                if square_rank rook =? square_rank k then
                  if rook <? k then
                    if free (k - 3) && free (k - 2) && free (k - 1)
                       && calm k && calm (k - 1) && calm (k - 2)
                    then [bare k (k - 2)] else []
                  else
                    if free (k + 1) && free (k + 2)
                       && calm k && calm (k + 1) && calm (k + 2)
                    then [bare k (k + 2)] else []
                else [])
             (scan_reversed (clean_castling_rights p))
  else [].

Definition pawn_captures (p : Position) : list Move :=
  let us := side_to_move p in
  flat_map (fun f =>
              if has_piece p f PAWN us
              then flat_map (promotions f)
                            (filter (occupied_co p (negb us))
                                    (scan_reversed (pawn_attacks us f)))
              else [])
           SQUARES_REVERSED.

Definition single_pushes (p : Position) : list Move :=
  let us := side_to_move p in
  flat_map (fun t =>
              let f := t + (if us then -8 else 8) in
              if has_piece p f PAWN us && negb (occupied p t)
              then promotions f t else [])
           SQUARES_REVERSED.

Definition double_pushes (p : Position) : list Move :=
  let us := side_to_move p in
  flat_map (fun t =>
              let mid := t + (if us then -8 else 8) in
              let f := t + (if us then -16 else 16) in
              if has_piece p f PAWN us && negb (occupied p mid) && negb (occupied p t)
                 && (if us then (square_rank t =? 2) || (square_rank t =? 3)
                     else (square_rank t =? 5) || (square_rank t =? 4))
              then [bare f t] else [])
           SQUARES_REVERSED.

(** [generate_pseudo_legal_ep]. *)
Definition ep_moves (p : Position) : list Move :=
  let us := side_to_move p in
  match ep_square p with
  | None => []
  | Some e =>
      if (e =? 0) || occupied p e then []
      else map (fun c => bare c e)
               (filter (fun c => has_piece p c PAWN us
                                 && (square_rank c =? (if us then 4 else 3))
                                 && mem c (pawn_attacks (negb us) e))
                       SQUARES_REVERSED)
  end.

Definition pseudo_legal_moves (p : Position) : list Move :=
  piece_moves p ++ castling_moves p ++ pawn_captures p
  ++ single_pushes p ++ double_pushes p ++ ep_moves p.

(** What every generated move satisfies: it starts on a piece of the side to move, and a
    pawn's move to the first or last rank is never bare. *)
Definition well_formed (p : Position) (m : Move) : Prop :=
  occupied_co p (side_to_move p) (from_square m) = true /\
  (is_type p PAWN (from_square m) = true -> promotion m = None ->
   square_rank (to_square m) <> 0 /\ square_rank (to_square m) <> 7).

(** The mover's king is not attacked once the move is made. *)
Definition is_safe (p : Position) (m : Move) : bool :=
  match push_position p m with
  | Returned p' =>
      match king p' (side_to_move p) with
      | Some k => negb (is_attacked_by p' (negb (side_to_move p)) k)
      | None => true
      end
  | Raised _ => false
  end.

(** [generate_legal_moves]; in check the king's moves come first. *)
Definition generate_legal_moves (p : Position) : list Move :=
  match king p (side_to_move p) with
  | None => pseudo_legal_moves p
  | Some k =>
      let safe := filter (is_safe p) (pseudo_legal_moves p) in
      if is_attacked_by p (negb (side_to_move p)) k
      then filter (fun m => from_square m =? k) safe
           ++ filter (fun m => negb (from_square m =? k)) safe
      else safe
  end.

Definition is_legal_position (p : Position) (m : Move) : bool :=
  existsb (move_eqb (from_chess960 p m)) (generate_legal_moves p).

(** The number of lines of [depth] legal moves from [p]. *)
Fixpoint perft (depth : nat) (p : Position) : Z :=
  match depth with
  | O => 1
  | S d =>
      fold_left (fun n m =>
                   match push_position p m with
                   | Returned p' => n + perft d p'
                   | Raised _ => n
                   end)
                (generate_legal_moves p) 0
  end.

Definition no_legal_moves (p : Position) : bool :=
  match generate_legal_moves p with [] => true | _ :: _ => false end.

Definition is_checkmate (p : Position) : bool := is_check p && no_legal_moves p.

Definition is_stalemate (p : Position) : bool := negb (is_check p) && no_legal_moves p.

Definition count_squares (f : Square -> bool) : nat := List.length (filter f SQUARES).

Definition light_square (sq : Square) : bool := Z.odd (square_file sq + square_rank sq).

(** [has_insufficient_material(c)]. *)
Definition has_insufficient_material (p : Position) (c : Color) : bool :=
  let mine := fun t sq => has_piece p sq t c in
  let any := fun f => negb (count_squares f =? 0)%nat in
  if any (fun sq => mine PAWN sq || mine ROOK sq || mine QUEEN sq) then false
  else if any (mine KNIGHT) then
    (count_squares (occupied_co p c) <=? 2)%nat
    && negb (any (fun sq => occupied_co p (negb c) sq
                            && negb (is_type p KING sq) && negb (is_type p QUEEN sq)))
  else if any (mine BISHOP) then
    let same_color :=
      negb (any (fun sq => is_type p BISHOP sq && negb (light_square sq)))
      || negb (any (fun sq => is_type p BISHOP sq && light_square sq)) in
    same_color && negb (any (is_type p PAWN)) && negb (any (is_type p KNIGHT))
  else true.

Definition is_insufficient_material (p : Position) : bool :=
  has_insufficient_material p WHITE && has_insufficient_material p BLACK.

(** [is_seventyfive_moves()]. *)
Definition is_seventyfive_moves (p : Position) : bool :=
  (150 <=? halfmove_clock p) && negb (no_legal_moves p).

Definition has_legal_en_passant (p : Position) : bool :=
  existsb (is_safe p) (ep_moves p).

(** Equality of [_transposition_key()]. *)
Definition same_transposition (p q : Position) : bool :=
  same_entries (option_eqb piece_eqb) (placement p) (placement q)
  && Bool.eqb (side_to_move p) (side_to_move q)
  && same_entries Z.eqb (clean_castling_rights p) (clean_castling_rights q)
  && option_eqb Z.eqb (if has_legal_en_passant p then ep_square p else None)
                      (if has_legal_en_passant q then ep_square q else None).

(** *** The board with its stack *)

Definition is_fivefold_repetition (b : BoardState) : bool :=
  (4 <=? List.length (filter (fun e => same_transposition (fst e) (position b)) (stack b)))%nat.

Definition is_game_over (b : BoardState) : bool :=
  is_checkmate (position b) || is_insufficient_material (position b)
  || no_legal_moves (position b) || is_seventyfive_moves (position b)
  || is_fivefold_repetition b.

Definition push (b : BoardState) (m : Move) : outcome BoardState :=
  let entry := (position b, from_chess960 (position b) (to_chess960 (position b) m)) in
  match push_position (position b) m with
  | Returned p' => Returned {| position := p'; stack := entry :: stack b |}
  | Raised p' => Raised {| position := p'; stack := entry :: stack b |}
  end.

Definition pop (b : BoardState) : option BoardState :=
  match stack b with
  | [] => None
  | (p, _) :: rest => Some {| position := p; stack := rest |}
  end.

Definition peek (b : BoardState) : option Move :=
  match stack b with
  | [] => None
  | (_, m) :: _ => Some m
  end.

Definition back_rank (c : Color) : list (option Piece) :=
  map (fun t => Some {| piece_type := t; color := c |})
      [ROOK; KNIGHT; BISHOP; QUEEN; KING; BISHOP; KNIGHT; ROOK].

Definition pawn_rank (c : Color) : list (option Piece) :=
  repeat (Some {| piece_type := PAWN; color := c |}) 8.

Definition STARTING_POSITION : Position :=
  {| placement := back_rank WHITE ++ pawn_rank WHITE ++ repeat None 32
                  ++ pawn_rank BLACK ++ back_rank BLACK;
     side_to_move := WHITE;
     castling_rights := [A1; H1; A8; H8];
     ep_square := None;
     halfmove_clock := 0;
     fullmove_number := 1 |}.

Definition starting_board : BoardState :=
  {| position := STARTING_POSITION; stack := [] |}.

#[export] Instance rules : Rules := {|
  Board := BoardState;
  chess.starting_board := starting_board;
  chess.turn := fun b => side_to_move (position b);
  chess.piece_at := fun b => piece_at (position b);
  chess.is_legal := fun b => is_legal_position (position b);
  chess.legal_moves := fun b => generate_legal_moves (position b);
  chess.push := push;
  chess.pop := pop;
  chess.peek := peek;
  chess.ply := fun b => List.length (stack b);
  chess.is_checkmate := fun b => is_checkmate (position b);
  chess.is_stalemate := fun b => is_stalemate (position b);
  chess.is_check := fun b => is_check (position b);
  chess.is_game_over := is_game_over
|}.

End StandardChess.

(** ** Games played on the instance *)

Module Games.
Import ChessGUI.

Definition GUI : Type := State StandardChess.rules.

(** The application after [__init__]. *)
Definition fresh : GUI := init.

Definition clicks (s : GUI) (sqs : list Square) : GUI := fold_left click_square sqs s.

Definition A5 : Square := 32.
Definition A6 : Square := 40.
Definition A7 : Square := 48.
Definition A8 : Square := 56.
Definition B7 : Square := 49.
Definition C6 : Square := 42.
Definition C7 : Square := 50.
Definition C8 : Square := 58.
Definition D5 : Square := 35.
Definition D7 : Square := 51.
Definition E2 : Square := 12.
Definition E3 : Square := 20.
Definition E4 : Square := 28.
Definition E5 : Square := 36.
Definition E7 : Square := 52.
Definition F3 : Square := 21.
Definition G1 : Square := 6.

(** The user picks up the e2 pawn. *)
Definition e2_in_hand : GUI := click_square fresh E2.

(** 1. e4, then d7 picked up. *)
Definition d7_in_hand : GUI := clicks fresh [E2; E4; D7].

(** The user answers yes (plays White): the engine has Black. *)
Definition engine_has_black : GUI := ask_play_engine fresh true None true.

(** The user answers no: the engine has White and is to move. *)
Definition engine_has_white : GUI := ask_play_engine fresh false None true.

(** 1. e4 d5 2. exd5 c6 3. dxc6 a6 4. cxb7 a5, all by clicks: White is to
    move and the b7 pawn can take on a8 or c8, promoting. *)
Definition before_promotion : GUI :=
  clicks fresh [E2; E4; D7; D5; E4; D5; C7; C6; D5; C6; A7; A6; C6; B7; A6; A5].

(** 1. f3 e5 2. g4 Qh4, by clicks. *)
Definition fools_mate : GUI := clicks fresh [13; 21; E7; E5; 14; 30; 59; 31].

(** 1. e4 by the user, 1... e5 by the engine, 2. Nf3 by the user. *)
Definition opening : list (Mover * Move) :=
  [(Human, StandardChess.bare E2 E4);
   (Engine, StandardChess.bare E7 E5);
   (Human, StandardChess.bare G1 F3)].

(** The engine has Black.  1. e4 by clicks, the engine answers 1... e5
    and the redraw runs. *)
Definition engine_replied : GUI :=
  run fresh [PlayVsEngine true None true; Click 270 390; Click 270 270;
             Timer 0 true; WorkerDone (play_returns (Some (StandardChess.bare E7 E5)));
             Timer 0 true].

(** The user then presses Undo: the engine's reply is taken back. *)
Definition reply_undone : GUI := undo_move engine_replied.

(** No engine.  1. e4 by clicks, and the engine check has run. *)
Definition black_to_move : GUI :=
  run fresh [Click 270 390; Click 270 270; Timer 0 true].

(** The engine has White and its worker is thinking about the first move. *)
Definition engine_thinking : GUI :=
  run fresh [PlayVsEngine false None true; Timer 0 true].

(** The engine has Black.  1. d4 e5 2. Nf3, the worker is thinking about
    Black's second move, and the user presses New Game. *)
Definition new_game_mid_think : GUI :=
  run fresh [PlayVsEngine true None true; Click 210 390; Click 210 270;
             Timer 0 true; WorkerDone (play_returns (Some (StandardChess.bare E7 E5)));
             Timer 0 true; Click 390 450; Click 330 330; Timer 0 true; NewGame].

(** The engine's answer to 2. Nf3: the pawn on e5 goes to e4. *)
Definition late_reply : PlayResult :=
  play_returns (Some (StandardChess.bare E5 E4)).

End Games.

(** * Properties *)

Import ChessGUI.
Import Conditions.

(** ** Coordinates *)

Lemma square_file_mod (sq : Z) : square_file sq = sq mod 8.
Proof. unfold square_file. change 7 with (Z.ones 3). now rewrite Z.land_ones. Qed.

Lemma square_rank_div (sq : Z) : square_rank sq = sq / 8.
Proof. unfold square_rank. now rewrite Z.shiftr_div_pow2. Qed.

Lemma square_rank_square (f r : Z) : 0 <= f <= 7 -> square_rank (square f r) = r.
Proof.
  intros Hf. rewrite square_rank_div. unfold square.
  Z.div_mod_to_equations; lia.
Qed.

Lemma square_file_square (f r : Z) : 0 <= f <= 7 -> square_file (square f r) = f.
Proof.
  intros Hf. rewrite square_file_mod. unfold square.
  Z.div_mod_to_equations; lia.
Qed.

Lemma rc_to_sq_sq_to_rc (sq : Z) (fl : bool) :
  0 <= sq < 64 -> rc_to_sq (fst (sq_to_rc sq fl)) (snd (sq_to_rc sq fl)) fl = sq.
Proof.
  intros Hsq. unfold sq_to_rc, rc_to_sq, square.
  rewrite square_file_mod, square_rank_div.
  destruct fl; cbn [fst snd]; Z.div_mod_to_equations; lia.
Qed.

(** C4.  At either flip state the two coordinate maps are inverse to each
    other: every square 0..63 goes to a (row, col) that maps back to it,
    and every (row, col) of the 8x8 grid goes to a square that maps back to
    it. *)
Theorem sq_rc_inverse (flip : bool) :
  (forall sq, 0 <= sq < 64 ->
     rc_to_sq (fst (sq_to_rc sq flip)) (snd (sq_to_rc sq flip)) flip = sq) /\
  (forall row col, 0 <= row <= 7 -> 0 <= col <= 7 ->
     sq_to_rc (rc_to_sq row col flip) flip = (row, col)).
Proof.
  split.
  - intros sq Hsq. unfold sq_to_rc, rc_to_sq, square.
    rewrite square_file_mod, square_rank_div.
    destruct flip; cbn [fst snd]; Z.div_mod_to_equations; lia.
  - intros row col Hr Hc. unfold sq_to_rc, rc_to_sq.
    destruct flip; rewrite square_file_square, square_rank_square by lia;
      f_equal; lia.
Qed.

Lemma sq_rc_inverse_witness :
  rc_to_sq (fst (sq_to_rc 12 true)) (snd (sq_to_rc 12 true)) true = 12 /\
  sq_to_rc (rc_to_sq 6 4 false) false = (6, 4).
Proof.
  split.
  - apply (proj1 (sq_rc_inverse true)). lia.
  - apply (proj2 (sq_rc_inverse false)); lia.
Defined.

Lemma sq_to_rc_range (sq : Z) (fl : bool) :
  0 <= sq < 64 ->
  0 <= fst (sq_to_rc sq fl) <= 7 /\ 0 <= snd (sq_to_rc sq fl) <= 7.
Proof.
  intros Hsq. unfold sq_to_rc. rewrite square_file_mod, square_rank_div.
  destruct fl; cbn [fst snd]; Z.div_mod_to_equations; lia.
Qed.

Lemma centre_div (k : Z) : 0 <= k <= 7 -> (k * SQUARE_SIZE + SQUARE_SIZE / 2) / SQUARE_SIZE = k.
Proof.
  intros Hk. change SQUARE_SIZE with 60. change (60 / 2) with 30.
  Z.div_mod_to_equations; lia.
Qed.

(** ** The handlers, over any rules *)

Ltac split_cases :=
  repeat match goal with
         | |- context [if ?c then _ else _] => destruct c eqn:?
         | |- context [match ?x with _ => _ end] => destruct x eqn:?
         end.

Section Handlers.
Context {R : Rules}.

Lemma draw_board_status (s : State R) : exists msg, draw_board s = set_status s msg.
Proof. unfold draw_board. split_cases; eexists; reflexivity. Qed.

Lemma engine_side_draw_board (s : State R) : engine_side (draw_board s) = engine_side s.
Proof. destruct (draw_board_status s) as [msg ->]. reflexivity. Qed.

Lemma board_draw_board (s : State R) : board (draw_board s) = board s.
Proof. destruct (draw_board_status s) as [msg ->]. reflexivity. Qed.

Lemma move_stack_draw_board (s : State R) : move_stack (draw_board s) = move_stack s.
Proof. destruct (draw_board_status s) as [msg ->]. reflexivity. Qed.

Lemma selected_sq_draw_board (s : State R) : selected_sq (draw_board s) = selected_sq s.
Proof. destruct (draw_board_status s) as [msg ->]. reflexivity. Qed.

Lemma legal_targets_draw_board (s : State R) : legal_targets (draw_board s) = legal_targets s.
Proof. destruct (draw_board_status s) as [msg ->]. reflexivity. Qed.

Lemma flip_draw_board (s : State R) : flip (draw_board s) = flip s.
Proof. destruct (draw_board_status s) as [msg ->]. reflexivity. Qed.

Lemma engine_side_start_engine (s : State R) (l : bool) :
  engine_side (start_engine s l) = engine_side s.
Proof. unfold start_engine. split_cases; reflexivity. Qed.

Lemma board_start_engine (s : State R) (l : bool) : board (start_engine s l) = board s.
Proof. unfold start_engine. split_cases; reflexivity. Qed.

Lemma move_stack_start_engine (s : State R) (l : bool) :
  move_stack (start_engine s l) = move_stack s.
Proof. unfold start_engine. split_cases; reflexivity. Qed.

Lemma engine_side_push_move (s : State R) (m : Move) :
  engine_side (push_move s m) = engine_side s.
Proof.
  unfold push_move. split_cases; rewrite ?engine_side_draw_board; reflexivity.
Qed.

Lemma engine_side_think_and_move (s : State R) (r : PlayResult) :
  engine_side (think_and_move s r) = engine_side s.
Proof. unfold think_and_move. split_cases; reflexivity. Qed.

Lemma engine_side_engine_move_if_needed (s : State R) (l : bool) :
  engine_side (engine_move_if_needed s l) = engine_side s.
Proof.
  unfold engine_move_if_needed.
  split_cases; cbn; rewrite ?engine_side_start_engine; auto.
Qed.

Lemma engine_side_on_click (s : State R) (x y : Z) :
  engine_side (on_click s x y) = engine_side s.
Proof.
  unfold on_click.
  split_cases; cbn;
    rewrite ?engine_side_draw_board, ?engine_side_push_move; reflexivity.
Qed.

Lemma engine_side_new_game (s : State R) : engine_side (new_game s) = engine_side s.
Proof.
  unfold new_game. split_cases; cbn; rewrite ?engine_side_draw_board; reflexivity.
Qed.

Lemma engine_side_undo_move (s : State R) : engine_side (undo_move s) = engine_side s.
Proof.
  unfold undo_move. split_cases; rewrite ?engine_side_draw_board; reflexivity.
Qed.

(** What a click on the middle of a square does. *)
Lemma click_square_unfold (s : State R) (sq : Square) :
  0 <= sq < 64 ->
  click_square s sq =
    if engine_to_move s then s
    else
      match selected_sq s with
      | None =>
          if own_piece s (piece_at (board s) sq)
          then draw_board (set_selection s (Some sq) (targets_from s sq))
          else s
      | Some sel =>
          after
            (draw_board
               (if is_legal (board s) {| from_square := sel; to_square := sq; promotion := None |}
                then push_move s
                       (if is_promotion_move s sel sq
                        then {| from_square := sel; to_square := sq; promotion := Some QUEEN |}
                        else {| from_square := sel; to_square := sq; promotion := None |})
                else if own_piece s (piece_at (board s) sq)
                     then set_selection s (Some sq) (targets_from s sq)
                     else set_selection s None []))
            engine_move_if_needed_cb
      end.
Proof.
  intros Hsq. unfold click_square, on_click, square_centre. cbn [fst snd].
  destruct (sq_to_rc_range sq (flip s) Hsq) as [Hrow Hcol].
  rewrite !centre_div by assumption.
  replace ((snd (sq_to_rc sq (flip s)) <? 0) || (snd (sq_to_rc sq (flip s)) >? 7)
           || (fst (sq_to_rc sq (flip s)) <? 0) || (fst (sq_to_rc sq (flip s)) >? 7))
    with false by (symmetry; rewrite !orb_false_iff; lia).
  rewrite (rc_to_sq_sq_to_rc sq (flip s) Hsq).
  reflexivity.
Qed.

(** C7.  While the engine's side is the side to move, a click anywhere
    leaves the position, the history and the selection as they were. *)
Theorem click_ignored_on_engine_turn (s : State R) (x y : Z) :
  engine_side s = Some (turn (board s)) ->
  board (on_click s x y) = board s /\
  move_stack (on_click s x y) = move_stack s /\
  selected_sq (on_click s x y) = selected_sq s /\
  legal_targets (on_click s x y) = legal_targets s.
Proof.
  intros Hside.
  assert (Hturn : engine_to_move s = true).
  { unfold engine_to_move. rewrite Hside. apply eqb_reflx. }
  unfold on_click. rewrite Hturn.
  destruct ((x / SQUARE_SIZE <? 0) || (x / SQUARE_SIZE >? 7)
            || (y / SQUARE_SIZE <? 0) || (y / SQUARE_SIZE >? 7)); auto.
Qed.

(** C6.  New Game, from any state: the board is the starting board, the
    history is empty, no square is selected and no target is marked. *)
Theorem new_game_resets (s : State R) :
  board (new_game s) = starting_board /\
  move_stack (new_game s) = [] /\
  selected_sq (new_game s) = None /\
  legal_targets (new_game s) = [].
Proof.
  unfold new_game.
  repeat split; split_cases; cbn;
    rewrite ?board_draw_board, ?move_stack_draw_board,
            ?selected_sq_draw_board, ?legal_targets_draw_board; reflexivity.
Qed.

(** C3, as the code has it.  Of all events only Play-vs-Engine touches the
    engine assignment, and it sets it to the side the user does not play;
    every other event, New Game among them, leaves it as it was. *)
Theorem engine_side_only_set_by_dialog (s : State R) (e : Event) :
  match e with
  | PlayVsEngine yes _ _ => engine_side (step s e) = Some (if yes then BLACK else WHITE)
  | _ => engine_side (step s e) = engine_side s
  end.
Proof.
  destruct e as [ | | | yes time launched | x y | i launched | r | ]; cbn [step].
  - apply engine_side_new_game.
  - apply engine_side_undo_move.
  - unfold flip_board. now rewrite engine_side_draw_board.
  - unfold ask_play_engine.
    destruct yes, time; split_cases; cbn; rewrite ?engine_side_start_engine; reflexivity.
  - apply engine_side_on_click.
  - destruct (take_callback (scheduled s) i) as [[cb rest]|]; [|reflexivity].
    destruct cb; cbn [run_callback].
    + now rewrite engine_side_engine_move_if_needed.
    + now rewrite engine_side_draw_board.
  - destruct (workers s); [reflexivity|].
    now rewrite engine_side_think_and_move.
  - unfold on_close, stop_engine. split_cases; reflexivity.
Qed.

(** C8, as the code has it.  An engine request whose [play] raises,
    returns nothing or returns a result without a move leaves the board
    and the history as they were, from the scheduled call to the end of
    the worker.  When [play] returns a move and it is [board.push] that
    raises, the history is still as it was; the board is what the failed
    push left. *)
Theorem engine_failure_effects (s : State R) (launched : bool) (r : PlayResult) :
  let requested := engine_move_if_needed s launched in
  let answered := think_and_move requested r in
  board requested = board s /\ move_stack requested = move_stack s /\
  (no_move r = true ->
   board answered = board s /\ move_stack answered = move_stack s) /\
  (forall m, r = play_returns (Some m) -> push_returns (board s) m = false ->
             push (board s) m = Raised (board answered) /\
             move_stack answered = move_stack s).
Proof.
  intros requested answered.
  assert (Hreq : board requested = board s /\ move_stack requested = move_stack s).
  { unfold requested, engine_move_if_needed.
    split; split_cases; cbn;
      rewrite ?board_start_engine, ?move_stack_start_engine; reflexivity. }
  destruct Hreq as [Hb Hh].
  split; [exact Hb|]. split; [exact Hh|]. split.
  - intros Hnone.
    assert (Hans : answered = requested).
    { unfold answered, think_and_move.
      destruct r as [ | | [m|]]; try reflexivity. discriminate Hnone. }
    rewrite Hans. auto.
  - intros m -> Hraise. unfold answered, think_and_move, push_returns in *.
    rewrite Hb. destruct (push (board s) m); [discriminate|]. cbn. auto.
Qed.


(** Undo looks at the board and the history only. *)
Lemma undo_move_nonempty (s : State R) (b : Board) :
  move_stack s <> [] -> pop (board s) = Some b ->
  board (undo_move s) = b /\
  move_stack (undo_move s) = removelast (move_stack s) /\
  selected_sq (undo_move s) = None /\
  legal_targets (undo_move s) = [].
Proof.
  intros Hne Hpop. unfold undo_move. rewrite Hpop.
  destruct (move_stack s) as [|e h] eqn:Hh; [congruence|]. cbn [List.length Nat.eqb].
  rewrite board_draw_board, move_stack_draw_board,
          selected_sq_draw_board, legal_targets_draw_board.
  cbn. rewrite Hh. auto.
Qed.

Lemma undo_move_empty (s : State R) : move_stack s = [] -> undo_move s = s.
Proof. intros Hh. unfold undo_move. now rewrite Hh. Qed.

Context {ok : RulesOk R}.

(** A push that returns is followed by a [peek] that returns. *)
Lemma peek_after_push (b b' : Board) (m : Move) :
  push b m = Returned b' -> exists top, peek b' = Some top.
Proof.
  intros Hpush. destruct (peek b') as [top|] eqn:Hpeek; [now exists top|].
  exfalso. apply (peek_nonempty b'); [|assumption].
  rewrite (ply_push _ _ _ Hpush). discriminate.
Qed.

Lemma push_move_returned (s : State R) (m : Move) (b' : Board) :
  push (board s) m = Returned b' ->
  board (push_move s m) = b' /\
  exists e, move_stack (push_move s m) = move_stack s ++ [e].
Proof.
  intros Hpush. unfold push_move. rewrite Hpush. cbn [board set_board].
  destruct (peek_after_push _ _ _ Hpush) as [top ->].
  rewrite board_draw_board, move_stack_draw_board. cbn. eauto.
Qed.

Lemma think_and_move_returned (s : State R) (m : Move) (b' : Board) :
  push (board s) m = Returned b' ->
  board (think_and_move s (play_returns (Some m))) = b' /\
  move_stack (think_and_move s (play_returns (Some m))) = move_stack s ++ [(m, None)].
Proof. intros Hpush. unfold think_and_move. rewrite Hpush. cbn. auto. Qed.

Lemma apply_move_returned (s : State R) (a : Mover * Move) (b' : Board) :
  push (board s) (snd a) = Returned b' ->
  board (apply_move s a) = b' /\
  exists e, move_stack (apply_move s a) = move_stack s ++ [e].
Proof.
  intros Hpush. unfold apply_move. destruct (fst a).
  - now apply push_move_returned.
  - destruct (think_and_move_returned s _ _ Hpush) as [Hb Hh]. eauto.
Qed.

(** C2, as the code has it.  With an empty history Undo returns at once:
    board, side to move, history and also the selection stay as they
    were.  With a non-empty history and a non-empty move stack on the
    board, Undo ends with no square selected and no target marked. *)
Theorem undo_move_selection (s : State R) :
  (move_stack s = [] ->
     board (undo_move s) = board s /\
     turn (board (undo_move s)) = turn (board s) /\
     move_stack (undo_move s) = move_stack s /\
     selected_sq (undo_move s) = selected_sq s /\
     legal_targets (undo_move s) = legal_targets s) /\
  (move_stack s <> [] -> ply (board s) <> 0%nat ->
     selected_sq (undo_move s) = None /\ legal_targets (undo_move s) = []).
Proof.
  split.
  - intros Hh. rewrite (undo_move_empty s Hh). auto.
  - intros Hne Hply.
    destruct (pop (board s)) as [b|] eqn:Hpop.
    + destruct (undo_move_nonempty s b Hne Hpop) as (_ & _ & Hsel & Htg). auto.
    + exfalso. now apply (pop_nonempty (board s)).
Qed.

(** C9, as the code has it.  A click on a square that holds no piece of
    the side to move: with nothing selected the selection stays as it was;
    with a piece selected, the human to move and the square not a legal
    destination, the selection is cleared. *)
Theorem click_on_foreign_square (s : State R) (x y : Z) :
  let sq := rc_to_sq (y / SQUARE_SIZE) (x / SQUARE_SIZE) (flip s) in
  own_piece s (piece_at (board s) sq) = false ->
  (selected_sq s = None ->
     selected_sq (on_click s x y) = selected_sq s /\
     legal_targets (on_click s x y) = legal_targets s) /\
  (forall sel, selected_sq s = Some sel ->
     0 <= x / SQUARE_SIZE <= 7 -> 0 <= y / SQUARE_SIZE <= 7 ->
     engine_to_move s = false ->
     is_legal (board s) {| from_square := sel; to_square := sq; promotion := None |} = false ->
     selected_sq (on_click s x y) = None /\ legal_targets (on_click s x y) = []).
Proof.
  intros sq Hown. split.
  - intros Hsel. unfold on_click. fold sq. rewrite Hsel, Hown.
    split_cases; auto.
  - intros sel Hsel Hx Hy Hturn Hillegal. unfold on_click. fold sq.
    replace ((x / SQUARE_SIZE <? 0) || (x / SQUARE_SIZE >? 7)
             || (y / SQUARE_SIZE <? 0) || (y / SQUARE_SIZE >? 7))
      with false by (symmetry; rewrite !orb_false_iff; lia).
    rewrite Hturn, Hsel, Hillegal, Hown. cbn.
    now rewrite selected_sq_draw_board, legal_targets_draw_board.
Qed.

Lemma undo_move_after_push (t : State R) (b : Board) (m : Move)
    (h : list HistoryEntry) (e : HistoryEntry) :
  push b m = Returned (board t) -> move_stack t = h ++ [e] ->
  board (undo_move t) = b /\ move_stack (undo_move t) = h.
Proof.
  intros Hpush Hh.
  assert (Hne : move_stack t <> []) by (rewrite Hh; now destruct h).
  destruct (undo_move_nonempty t b Hne (pop_push _ _ _ Hpush)) as (Hb & Hm & _).
  split; [assumption|]. rewrite Hm, Hh. apply removelast_last.
Qed.

(** C5.  A line of legal moves, each applied by the click path or by the
    engine path, followed by as many Undo calls, gives back the board and
    the history from before the line. *)
Theorem undo_restores_line (line : list (Mover * Move)) (s : State R) :
  legal_line (board s) (map snd line) = true ->
  let played := fold_left apply_move line s in
  let undone := Nat.iter (List.length line) undo_move played in
  board undone = board s /\ move_stack undone = move_stack s.
Proof.
  revert s. induction line as [|a line IH]; intros s Hline.
  - cbn. auto.
  - cbn [map legal_line] in Hline. apply andb_true_iff in Hline as [_ Hrest].
    destruct (push (board s) (snd a)) as [b'|b'] eqn:Hpush; [|discriminate].
    destruct (apply_move_returned s a b' Hpush) as [Hb [e Hh]].
    rewrite <- Hb in Hrest.
    destruct (IH (apply_move s a) Hrest) as [IHb IHh].
    cbn zeta. cbn [fold_left List.length]. rewrite Nat.iter_succ.
    apply (undo_move_after_push _ (board s) (snd a) (move_stack s) e).
    + rewrite IHb, Hb. assumption.
    + rewrite IHh. assumption.
Qed.



(** A bare move that is legal is never a pawn reaching the last rank. *)
Lemma legal_bare_not_promotion (s : State R) (sel sq : Square) :
  is_legal (board s) {| from_square := sel; to_square := sq; promotion := None |} = true ->
  is_promotion_move s sel sq = false.
Proof.
  intros Hlegal. unfold is_promotion_move.
  destruct (piece_at (board s) sel) as [[ty c]|] eqn:Hpiece; [|reflexivity].
  destruct ty; try reflexivity. cbn [piece_type color].
  destruct (pawn_last_rank_promotes _ _ _ _ Hlegal Hpiece) as [H7 H0].
  apply Z.eqb_neq in H7, H0. rewrite H7, H0, !andb_false_r. reflexivity.
Qed.









(** The two clicks that should promote a pawn: the pawn is picked up, and
    the click on the last-rank square pushes nothing. *)
Lemma promotion_clicks_push_nothing (s : State R) (f t : Square) :
  0 <= f < 64 -> 0 <= t < 64 ->
  selected_sq s = None -> engine_to_move s = false ->
  piece_at (board s) f = Some {| piece_type := PAWN; color := turn (board s) |} ->
  square_rank t = (if turn (board s) then 7 else 0) ->
  is_legal (board s) {| from_square := f; to_square := t; promotion := Some QUEEN |} = true ->
  let picked := click_square s f in
  let clicked := click_square picked t in
  selected_sq picked = Some f /\
  board clicked = board s /\ move_stack clicked = move_stack s.
Proof.
  intros Hf Ht Hsel Hturn Hpawn Hrank _ picked clicked.
  assert (Hpicked : exists msg,
             picked = set_status (set_selection s (Some f) (targets_from s f)) msg).
  { unfold picked. rewrite (click_square_unfold s f Hf), Hturn, Hsel, Hpawn.
    cbn [own_piece color]. rewrite eqb_reflx. apply draw_board_status. }
  destruct Hpicked as [msg Hpicked].
  split; [now rewrite Hpicked|].
  unfold clicked. rewrite (click_square_unfold picked t Ht).
  assert (Hturn' : engine_to_move picked = false) by (now rewrite Hpicked).
  rewrite Hturn'.
  replace (selected_sq picked) with (Some f) by (now rewrite Hpicked).
  assert (Hbare : is_legal (board picked)
                    {| from_square := f; to_square := t; promotion := None |} = false).
  { rewrite Hpicked. cbn [board set_status set_selection].
    destruct (is_legal (board s) _) eqn:Hlegal; [|reflexivity].
    destruct (pawn_last_rank_promotes _ _ _ _ Hlegal Hpawn) as [H7 H0].
    destruct (turn (board s)); congruence. }
  rewrite Hbare.
  destruct (own_piece picked _); cbn;
    rewrite board_draw_board, move_stack_draw_board; cbn; now rewrite Hpicked.
Qed.

End Handlers.

(** ** The instance obeys the laws *)

Module StandardChessFacts.
Import StandardChess.

Lemma piece_type_eqb_eq (a b : PieceType) : piece_type_eqb a b = true -> a = b.
Proof. destruct a, b; (reflexivity || discriminate). Qed.

Lemma move_eqb_eq (a b : Move) : move_eqb a b = true -> a = b.
Proof.
  destruct a as [fa ta pa], b as [fb tb pb]. unfold move_eqb. cbn.
  rewrite !andb_true_iff, !Z.eqb_eq. intros [[-> ->] Hp]. f_equal.
  destruct pa, pb; cbn in Hp; try discriminate; try reflexivity.
  f_equal. now apply piece_type_eqb_eq.
Qed.

Lemma has_piece_true (p : Position) (sq : Square) (t : PieceType) (c : Color) :
  has_piece p sq t c = true ->
  StandardChess.piece_at p sq = Some {| piece_type := t; color := c |}.
Proof.
  unfold has_piece. destruct (StandardChess.piece_at p sq) as [[t' c']|]; cbn; [|discriminate].
  unfold piece_eqb. cbn. rewrite andb_true_iff. intros [Ht Hc].
  apply piece_type_eqb_eq in Ht. apply eqb_prop in Hc. now subst.
Qed.

Lemma has_piece_own (p : Position) (sq : Square) (t : PieceType) (c : Color) :
  has_piece p sq t c = true -> occupied_co p c sq = true /\ is_type p t sq = true.
Proof.
  intros H. apply has_piece_true in H. unfold occupied_co, is_type. rewrite H. cbn.
  split; [apply eqb_reflx|now destruct t].
Qed.

Lemma promotions_spec (f t : Square) (m : Move) :
  In m (promotions f t) ->
  from_square m = f /\
  (promotion m = None -> square_rank t <> 0 /\ square_rank t <> 7).
Proof.
  unfold promotions.
  destruct ((square_rank t =? 0) || (square_rank t =? 7)) eqn:Hlast.
  - cbn. intros [<-|[<-|[<-|[<-|[]]]]]; cbn; split; (reflexivity || discriminate).
  - apply orb_false_iff in Hlast as [H0 H7]. apply Z.eqb_neq in H0, H7.
    cbn. intros [<-|[]]. cbn. auto.
Qed.

(** The rank of a square a pawn of colour [c] attacks from [sq]. *)
Lemma pawn_attacks_rank (c : Color) (sq a : Square) :
  mem a (pawn_attacks c sq) = true ->
  square_rank a = square_rank sq + (if c then 1 else -1).
Proof.
  unfold mem, pawn_attacks, shifted. rewrite existsb_exists.
  intros (x & Hin & Heq). apply Z.eqb_eq in Heq. subst x.
  apply in_flat_map in Hin as (d & Hd & Hin).
  destruct (on_grid _ _) eqn:Hgrid; [|contradiction].
  destruct Hin as [<-|[]].
  unfold on_grid in Hgrid. rewrite !andb_true_iff, !Z.leb_le in Hgrid.
  rewrite square_rank_square by lia.
  destruct c; cbn in Hd; destruct Hd as [<-|[<-|[]]]; reflexivity.
Qed.

Lemma piece_moves_well_formed (p : Position) (m : Move) :
  In m (piece_moves p) -> well_formed p m.
Proof.
  unfold piece_moves. intros Hin. apply in_flat_map in Hin as (f & _ & Hin).
  destruct (occupied_co p (side_to_move p) f && negb (is_type p PAWN f)) eqn:Hc;
    [|contradiction].
  apply andb_true_iff in Hc as [Hown Hpawn]. apply negb_true_iff in Hpawn.
  apply in_map_iff in Hin as (t & <- & _). split; cbn; [assumption|congruence].
Qed.

Lemma castling_moves_well_formed (p : Position) (m : Move) :
  In m (castling_moves p) -> well_formed p m.
Proof.
  unfold castling_moves. set (k := if side_to_move p then E1 else E8).
  destruct (has_piece p k KING (side_to_move p)) eqn:Hking; [|contradiction].
  destruct (has_piece_own _ _ _ _ Hking) as [Hown Hty].
  assert (Hnp : is_type p PAWN k = false).
  { apply has_piece_true in Hking. unfold is_type. now rewrite Hking. }
  intros Hin. apply in_flat_map in Hin as (rook & _ & Hin).
  assert (Hfrom : from_square m = k).
  { repeat match type of Hin with
           | In _ (if ?c then _ else _) => destruct c
           end; cbn in Hin; intuition (subst; reflexivity). }
  split; rewrite Hfrom; [assumption|congruence].
Qed.

Lemma promoted_well_formed (p : Position) (f t : Square) (m : Move) :
  has_piece p f PAWN (side_to_move p) = true ->
  In m (promotions f t) -> well_formed p m.
Proof.
  intros Hpawn Hin. destruct (has_piece_own _ _ _ _ Hpawn) as [Hown _].
  assert (Hto : to_square m = t).
  { unfold promotions in Hin. destruct (_ || _); cbn in Hin;
      intuition (subst; reflexivity). }
  destruct (promotions_spec f t m Hin) as [Hf Hp].
  split; rewrite ?Hf, ?Hto; auto.
Qed.

Lemma pawn_captures_well_formed (p : Position) (m : Move) :
  In m (pawn_captures p) -> well_formed p m.
Proof.
  unfold pawn_captures. intros Hin. apply in_flat_map in Hin as (f & _ & Hin).
  destruct (has_piece p f PAWN (side_to_move p)) eqn:Hpawn; [|contradiction].
  apply in_flat_map in Hin as (t & _ & Hin).
  now apply (promoted_well_formed p f t).
Qed.

Lemma single_pushes_well_formed (p : Position) (m : Move) :
  In m (single_pushes p) -> well_formed p m.
Proof.
  unfold single_pushes. intros Hin. apply in_flat_map in Hin as (t & _ & Hin).
  destruct (has_piece p _ PAWN (side_to_move p) && negb (occupied p t)) eqn:Hc;
    [|contradiction].
  apply andb_true_iff in Hc as [Hpawn _].
  eapply promoted_well_formed; eassumption.
Qed.

Lemma double_pushes_well_formed (p : Position) (m : Move) :
  In m (double_pushes p) -> well_formed p m.
Proof.
  unfold double_pushes. intros Hin. apply in_flat_map in Hin as (t & _ & Hin).
  match type of Hin with In _ (if ?c then _ else _) => destruct c eqn:Hc end;
    [|contradiction].
  destruct Hin as [<-|[]].
  rewrite !andb_true_iff in Hc. destruct Hc as [[[Hpawn _] _] Hrank].
  destruct (has_piece_own _ _ _ _ Hpawn) as [Hown _].
  split; unfold bare; cbn [from_square to_square]; [assumption|]. intros _ _.
  destruct (side_to_move p); apply orb_true_iff in Hrank;
    rewrite !Z.eqb_eq in Hrank; lia.
Qed.

Lemma ep_moves_well_formed (p : Position) (m : Move) :
  In m (ep_moves p) -> well_formed p m.
Proof.
  unfold ep_moves. destruct (ep_square p) as [e|]; [|contradiction].
  destruct ((e =? 0) || occupied p e); [contradiction|].
  intros Hin. apply in_map_iff in Hin as (c & <- & Hin).
  apply filter_In in Hin as [_ Hc].
  rewrite !andb_true_iff in Hc. destruct Hc as [[Hpawn Hrank] Hatt].
  destruct (has_piece_own _ _ _ _ Hpawn) as [Hown _].
  apply pawn_attacks_rank in Hatt. apply Z.eqb_eq in Hrank.
  split; unfold bare; cbn [from_square to_square]; [assumption|]. intros _ _.
  destruct (side_to_move p); cbn [negb] in Hatt; lia.
Qed.

Lemma pseudo_legal_well_formed (p : Position) (m : Move) :
  In m (pseudo_legal_moves p) -> well_formed p m.
Proof.
  unfold pseudo_legal_moves. rewrite !in_app_iff.
  intros [H|[H|[H|[H|[H|H]]]]];
    eauto using piece_moves_well_formed, castling_moves_well_formed,
      pawn_captures_well_formed, single_pushes_well_formed,
      double_pushes_well_formed, ep_moves_well_formed.
Qed.

Lemma legal_is_pseudo_legal (p : Position) (m : Move) :
  In m (generate_legal_moves p) -> In m (pseudo_legal_moves p).
Proof.
  unfold generate_legal_moves. destruct (king p (side_to_move p)); [|auto].
  destruct (is_attacked_by p _ _); rewrite ?in_app_iff, !filter_In;
    intuition (eapply proj1, filter_In; eauto).
Qed.

Lemma from_chess960_from (p : Position) (m : Move) :
  from_square (from_chess960 p m) = from_square m.
Proof.
  unfold from_chess960. destruct (promotion m); [reflexivity|].
  destruct ((from_square m =? E1) && _) eqn:H1.
  - apply andb_true_iff in H1 as [H1 _]. apply Z.eqb_eq in H1.
    split_cases; cbn; congruence.
  - destruct ((from_square m =? E8) && _) eqn:H8; [|reflexivity].
    apply andb_true_iff in H8 as [H8 _]. apply Z.eqb_eq in H8.
    split_cases; cbn; congruence.
Qed.

Lemma to_chess960_from (p : Position) (m : Move) :
  from_square (to_chess960 p m) = from_square m.
Proof.
  unfold to_chess960.
  destruct ((from_square m =? E1) && _) eqn:H1.
  - apply andb_true_iff in H1 as [H1 _]. apply Z.eqb_eq in H1.
    split_cases; cbn; congruence.
  - destruct ((from_square m =? E8) && _) eqn:H8; [|reflexivity].
    apply andb_true_iff in H8 as [H8 _]. apply Z.eqb_eq in H8.
    split_cases; cbn; congruence.
Qed.

Lemma from_chess960_pawn (p : Position) (f t : Square) :
  is_type p PAWN f = true -> from_chess960 p (bare f t) = bare f t.
Proof.
  intros Hpawn. unfold from_chess960. cbn.
  assert (Hk : is_type p KING f = false).
  { unfold is_type in *. destruct (StandardChess.piece_at p f) as [[[] c]|];
      (discriminate || reflexivity). }
  destruct (f =? E1) eqn:H1.
  - apply Z.eqb_eq in H1. subst f. now rewrite Hk.
  - destruct (f =? E8) eqn:H8; [|reflexivity].
    apply Z.eqb_eq in H8. subst f. now rewrite Hk.
Qed.

Lemma legal_well_formed (p : Position) (m : Move) :
  is_legal_position p m = true -> well_formed p (from_chess960 p m).
Proof.
  unfold is_legal_position. rewrite existsb_exists. intros (m' & Hin & Heq).
  apply move_eqb_eq in Heq. subst m'.
  now apply pseudo_legal_well_formed, legal_is_pseudo_legal.
Qed.

Lemma push_position_returns (p : Position) (m : Move) :
  occupied_co p (side_to_move p) (from_square m) = true ->
  exists p', push_position p m = Returned p'.
Proof.
  intros Hown. unfold push_position.
  destruct (is_null (to_chess960 p m)); [eauto|].
  rewrite to_chess960_from.
  unfold occupied_co in Hown.
  destruct (StandardChess.piece_at p (from_square m)); [eauto|discriminate].
Qed.

Theorem rules_ok : RulesOk StandardChess.rules.
Proof.
  constructor; cbn.
  - reflexivity.
  - intros b m b'. unfold StandardChess.push.
    destruct (push_position (position b) m); inversion 1; reflexivity.
  - intros [p st] m b'. unfold StandardChess.push. cbn.
    destruct (push_position p m); inversion 1; reflexivity.
  - intros [p st] b'. unfold StandardChess.pop. cbn.
    destruct st as [|[q mv] rest]; inversion 1; reflexivity.
  - intros [p st]. unfold StandardChess.pop. cbn.
    destruct st as [|[q mv] rest]; intros Hply; [now elim Hply|discriminate].
  - intros [p st]. unfold StandardChess.peek. cbn.
    destruct st as [|[q mv] rest]; intros Hply; [now elim Hply|discriminate].
  - intros b m Hlegal. unfold StandardChess.push.
    destruct (legal_well_formed _ _ Hlegal) as [Hown _].
    rewrite from_chess960_from in Hown.
    destruct (push_position_returns _ _ Hown) as [p' ->]. eauto.
  - intros b f t c Hlegal Hpiece.
    assert (Hpawn : is_type (position b) PAWN f = true).
    { unfold is_type. now rewrite Hpiece. }
    apply legal_well_formed in Hlegal.
    change {| from_square := f; to_square := t; promotion := None |}
      with (bare f t) in Hlegal.
    rewrite (from_chess960_pawn _ _ _ Hpawn) in Hlegal.
    destruct Hlegal as [_ Hrank]. cbn in Hrank.
    destruct (Hrank Hpawn eq_refl). auto.
Qed.

(** The generator counts the known numbers of lines from the start. *)
Example perft_starting_position :
  perft 1 STARTING_POSITION = 20 /\ perft 2 STARTING_POSITION = 400.
Proof. vm_compute. split; reflexivity. Qed.

End StandardChessFacts.

(** ** The handlers on real games *)

Import Games.

Example e2_e4_by_clicks :
  let s := clicks fresh [E2; E4] in
  piece_at (board s) E4 = Some {| piece_type := PAWN; color := WHITE |} /\
  piece_at (board s) E2 = None /\
  turn (board s) = BLACK /\
  List.length (move_stack s) = 1%nat /\
  status_var s = "Black to move".
Proof. vm_compute. repeat split. Qed.

Example fools_mate_is_mate :
  is_checkmate (board fools_mate) = true /\
  is_game_over (board fools_mate) = true /\
  status_var fools_mate = "Checkmate — Black wins".
Proof. vm_compute. repeat split. Qed.

(** C1.  After 1. e4 d5 2. exd5 c6 3. dxc6 a6 4. cxb7 a5 the capture
    b7xa8=Q is legal and a8 is marked as a target of the b7 pawn, but the
    clicks b7, a8 apply no move: the bare move b7a8 fails the legality
    test, the branch that adds the queen is not reached, board and
    history stay as they were and the selection is dropped. *)
Theorem promotion_by_clicks_is_lost :
  let s := before_promotion in
  let picked := click_square s B7 in
  let clicked := click_square picked A8 in
  turn (board s) = WHITE /\
  piece_at (board s) B7 = Some {| piece_type := PAWN; color := WHITE |} /\
  square_rank A8 = 7 /\
  is_legal (board s) {| from_square := B7; to_square := A8; promotion := Some QUEEN |} = true /\
  is_legal (board s) {| from_square := B7; to_square := A8; promotion := None |} = false /\
  selected_sq picked = Some B7 /\
  legal_targets picked = [C8; C8; C8; C8; A8; A8; A8; A8] /\
  board clicked = board s /\
  move_stack clicked = move_stack s /\
  piece_at (board clicked) B7 = Some {| piece_type := PAWN; color := WHITE |} /\
  piece_at (board clicked) A8 = Some {| piece_type := ROOK; color := BLACK |} /\
  selected_sq clicked = None.
Proof. vm_compute. repeat split. Qed.

(** The same on any board of the instance, by the general lemma. *)
Lemma promotion_clicks_push_nothing_witness :
  board (click_square (click_square before_promotion B7) A8) = board before_promotion /\
  move_stack (click_square (click_square before_promotion B7) A8)
  = move_stack before_promotion.
Proof.
  apply (promotion_clicks_push_nothing (ok := StandardChessFacts.rules_ok)
           before_promotion B7 A8);
    try (vm_compute; reflexivity); unfold B7, A8; lia.
Defined.

(** C2, against the claim as written.  In a fresh game the user picks up
    the e2 pawn and presses Undo: the history is empty, and the selection
    is still e2 with its two targets, not NoSelection. *)
Lemma undo_on_empty_history_keeps_selection :
  move_stack e2_in_hand = [] /\
  selected_sq (undo_move e2_in_hand) = Some E2 /\
  legal_targets (undo_move e2_in_hand) = [E3; E4] /\
  selected_sq (undo_move e2_in_hand) <> None.
Proof. vm_compute. repeat split. discriminate. Qed.

Lemma undo_move_selection_witness :
  selected_sq (undo_move e2_in_hand) = selected_sq e2_in_hand /\
  selected_sq (undo_move d7_in_hand) = None.
Proof.
  split.
  - apply (proj1 (undo_move_selection (ok := StandardChessFacts.rules_ok) e2_in_hand)).
    vm_compute. reflexivity.
  - apply (proj2 (undo_move_selection (ok := StandardChessFacts.rules_ok) d7_in_hand));
      vm_compute; discriminate.
Defined.

(** C3, against the claim as written.  The engine was given Black; after
    New Game it still has Black. *)
Lemma new_game_keeps_engine_side :
  engine_side engine_has_black = Some BLACK /\
  engine_side (new_game engine_has_black) = Some BLACK /\
  engine_side (new_game engine_has_black) = engine_side engine_has_black.
Proof. vm_compute. repeat split. Qed.

Lemma undo_restores_line_witness :
  board (Nat.iter 3 undo_move (fold_left apply_move opening fresh)) = board fresh /\
  move_stack (Nat.iter 3 undo_move (fold_left apply_move opening fresh)) = move_stack fresh.
Proof.
  apply (undo_restores_line (ok := StandardChessFacts.rules_ok) opening fresh).
  vm_compute. reflexivity.
Defined.

Lemma click_ignored_on_engine_turn_witness :
  board (on_click engine_has_white 270 390) = board engine_has_white /\
  move_stack (on_click engine_has_white 270 390) = move_stack engine_has_white /\
  selected_sq (on_click engine_has_white 270 390) = selected_sq engine_has_white /\
  legal_targets (on_click engine_has_white 270 390) = legal_targets engine_has_white.
Proof.
  apply (click_ignored_on_engine_turn engine_has_white 270 390).
  vm_compute. reflexivity.
Defined.

(** C8, against the claim as written.  The engine has Black; after
    1. d4 e5 2. Nf3 the user presses New Game while the worker thinks.
    The worker's answer e5e4 starts on a square that is now empty:
    [board.push] raises inside the worker's [try], the error is only
    printed, and the board is no longer what it was (its move stack has
    one entry, the fresh board had none). *)
Lemma engine_push_error_changes_board :
  workers new_game_mid_think = 1%nat /\
  no_move late_reply = false /\
  push_returns (board new_game_mid_think) (StandardChess.bare E5 E4) = false /\
  ply (board new_game_mid_think) = 0%nat /\
  ply (board (think_and_move new_game_mid_think late_reply)) = 1%nat /\
  board (think_and_move new_game_mid_think late_reply) <> board new_game_mid_think /\
  move_stack (think_and_move new_game_mid_think late_reply) = [].
Proof.
  repeat split; try (vm_compute; reflexivity).
  intros Heq. apply (f_equal ply) in Heq. vm_compute in Heq. discriminate Heq.
Qed.

Lemma engine_failure_effects_witness :
  (board (think_and_move (engine_move_if_needed engine_has_white true) play_raises)
   = board engine_has_white /\
   move_stack (think_and_move (engine_move_if_needed engine_has_white true) play_raises)
   = move_stack engine_has_white) /\
  move_stack (think_and_move (engine_move_if_needed new_game_mid_think true) late_reply)
  = move_stack new_game_mid_think.
Proof.
  split.
  - destruct (engine_failure_effects engine_has_white true play_raises)
      as (_ & _ & Hnone & _).
    apply Hnone. reflexivity.
  - destruct (engine_failure_effects new_game_mid_think true late_reply)
      as (_ & _ & _ & Hraise).
    apply (proj2 (Hraise (StandardChess.bare E5 E4) eq_refl eq_refl)).
Defined.

(** C9, against the claim as written.  With the e2 pawn in hand the user
    clicks e5: the square is empty and no destination of the pawn, and the
    selection changes from e2 to nothing. *)
Lemma click_elsewhere_clears_selection :
  own_piece e2_in_hand (piece_at (board e2_in_hand) E5) = false /\
  is_legal (board e2_in_hand) {| from_square := E2; to_square := E5; promotion := None |} = false /\
  selected_sq e2_in_hand = Some E2 /\
  legal_targets e2_in_hand = [E3; E4] /\
  selected_sq (click_square e2_in_hand E5) = None /\
  legal_targets (click_square e2_in_hand E5) = [] /\
  selected_sq (click_square e2_in_hand E5) <> selected_sq e2_in_hand.
Proof. vm_compute. repeat split. discriminate. Qed.

Lemma click_on_foreign_square_witness :
  (selected_sq (on_click fresh 270 210) = selected_sq fresh /\
   legal_targets (on_click fresh 270 210) = legal_targets fresh) /\
  (selected_sq (on_click e2_in_hand 270 210) = None /\
   legal_targets (on_click e2_in_hand 270 210) = []).
Proof.
  split.
  - apply (proj1 (click_on_foreign_square fresh 270 210 eq_refl)). reflexivity.
  - apply (proj2 (click_on_foreign_square e2_in_hand 270 210 eq_refl) E2);
      vm_compute; try reflexivity; split; discriminate.
Defined.



(** * Further properties of the script *)

(** ** Clicks and squares *)

Lemma rc_to_sq_range (row col : Z) (fl : bool) :
  0 <= row <= 7 -> 0 <= col <= 7 -> 0 <= rc_to_sq row col fl < 64.
Proof. intros Hr Hc. unfold rc_to_sq, square. destruct fl; lia. Qed.

(** X3.  The same pixel picks, in the two orientations, the two squares that
    are mirror images through the centre of the board; both are squares of
    the grid. *)
Theorem flip_mirrors_square (row col : Z) :
  0 <= row <= 7 -> 0 <= col <= 7 ->
  rc_to_sq row col true = 63 - rc_to_sq row col false /\
  0 <= rc_to_sq row col false < 64 /\ 0 <= rc_to_sq row col true < 64.
Proof.
  intros Hr Hc. split; [|split; now apply rc_to_sq_range].
  unfold rc_to_sq, square. lia.
Qed.

Lemma flip_mirrors_square_witness :
  rc_to_sq 6 4 true = 63 - rc_to_sq 6 4 false.
Proof. apply (flip_mirrors_square 6 4); lia. Defined.

Section Clicks.
Context {R : Rules}.

Lemma on_click_same_cell (s : State R) (x y x' y' : Z) :
  x / SQUARE_SIZE = x' / SQUARE_SIZE -> y / SQUARE_SIZE = y' / SQUARE_SIZE ->
  on_click s x y = on_click s x' y'.
Proof. intros Hx Hy. unfold on_click. now rewrite Hx, Hy. Qed.

(** X1.  Every pixel of the 60x60 cell in which [draw_board] paints a square
    is translated back to that square, at either orientation: a click
    anywhere in the cell does what a click on its middle does. *)
Theorem click_in_cell_hits_square (s : State R) (sq : Square) (x y : Z) :
  0 <= sq < 64 ->
  snd (sq_to_rc sq (flip s)) * SQUARE_SIZE <= x
    < snd (sq_to_rc sq (flip s)) * SQUARE_SIZE + SQUARE_SIZE ->
  fst (sq_to_rc sq (flip s)) * SQUARE_SIZE <= y
    < fst (sq_to_rc sq (flip s)) * SQUARE_SIZE + SQUARE_SIZE ->
  rc_to_sq (y / SQUARE_SIZE) (x / SQUARE_SIZE) (flip s) = sq /\
  on_click s x y = click_square s sq.
Proof.
  intros Hsq Hx Hy.
  destruct (sq_to_rc_range sq (flip s) Hsq) as [Hrow Hcol].
  change SQUARE_SIZE with 60 in Hx, Hy.
  assert (Hcx : x / SQUARE_SIZE = snd (sq_to_rc sq (flip s))).
  { change SQUARE_SIZE with 60. Z.div_mod_to_equations; lia. }
  assert (Hcy : y / SQUARE_SIZE = fst (sq_to_rc sq (flip s))).
  { change SQUARE_SIZE with 60. Z.div_mod_to_equations; lia. }
  split.
  - rewrite Hcx, Hcy. now apply rc_to_sq_sq_to_rc.
  - unfold click_square, square_centre. cbn [fst snd].
    apply on_click_same_cell; rewrite centre_div by assumption; assumption.
Qed.

(** X2.  A click outside the 480x480 board, negative coordinates included,
    changes nothing at all. *)
Theorem click_off_board_ignored (s : State R) (x y : Z) :
  x < 0 \/ BOARD_SIZE <= x \/ y < 0 \/ BOARD_SIZE <= y ->
  on_click s x y = s.
Proof.
  intros Hout. unfold on_click.
  replace ((x / SQUARE_SIZE <? 0) || (x / SQUARE_SIZE >? 7)
           || (y / SQUARE_SIZE <? 0) || (y / SQUARE_SIZE >? 7)) with true;
    [reflexivity|].
  symmetry. rewrite !orb_true_iff, !Z.ltb_lt, !Z.gtb_lt.
  change SQUARE_SIZE with 60. change BOARD_SIZE with 480 in Hout.
  destruct Hout as [H|[H|[H|H]]];
    [left; left; left|left; left; right|left; right|right];
    Z.div_mod_to_equations; lia.
Qed.

End Clicks.

(** ** The handlers *)

Section Shell.
Context {R : Rules}.

Lemma draw_board_eq (s : State R) : draw_board s = set_status s (status_of (board s)).
Proof. unfold draw_board, status_of. split_cases; reflexivity. Qed.

Lemma fresh_is_fixed (s : State R) : status_fresh s -> draw_board s = s.
Proof.
  unfold status_fresh. intros Hfresh. rewrite draw_board_eq, <- Hfresh.
  destruct s; reflexivity.
Qed.

(** X4.  Flip Board turns the view around and redraws; pressing it twice gives
    the state a plain redraw gives, and the very same state when the
    status line was up to date.  A redraw after a redraw changes nothing. *)
Theorem flip_board_twice (s : State R) :
  flip (flip_board s) = negb (flip s) /\
  flip_board (flip_board s) = draw_board s /\
  draw_board (draw_board s) = draw_board s /\
  (status_fresh s -> flip_board (flip_board s) = s).
Proof.
  assert (Htwice : flip_board (flip_board s) = draw_board s).
  { unfold flip_board. rewrite !draw_board_eq. cbn.
    rewrite negb_involutive. reflexivity. }
  repeat split.
  - unfold flip_board. rewrite draw_board_eq. reflexivity.
  - exact Htwice.
  - rewrite !draw_board_eq. reflexivity.
  - intros Hfresh. rewrite Htwice. now apply fresh_is_fixed.
Qed.

(** X5.  With nothing selected and the human to move, a click on a piece of the
    side to move picks it up: the square is selected, the marked targets
    are the destinations of the legal moves from it, and board, history
    and timer queue stay as they were. *)
Theorem click_picks_up_piece (s : State R) (sq : Square) :
  0 <= sq < 64 -> engine_to_move s = false -> selected_sq s = None ->
  own_piece s (piece_at (board s) sq) = true ->
  selected_sq (click_square s sq) = Some sq /\
  (forall t, In t (legal_targets (click_square s sq)) <->
             exists m, In m (legal_moves (board s)) /\ from_square m = sq /\ to_square m = t) /\
  board (click_square s sq) = board s /\
  move_stack (click_square s sq) = move_stack s /\
  scheduled (click_square s sq) = scheduled s.
Proof.
  intros Hsq Hturn Hsel Hown.
  rewrite (click_square_unfold s sq Hsq), Hturn, Hsel, Hown, draw_board_eq. cbn.
  repeat split; try reflexivity.
  - unfold targets_from. rewrite in_map_iff. intros (m & Hto & Hin).
    apply filter_In in Hin as [Hin Hfrom]. apply Z.eqb_eq in Hfrom. eauto.
  - intros (m & Hin & Hfrom & Hto). unfold targets_from. apply in_map_iff.
    exists m. split; [assumption|]. apply filter_In. split; [assumption|].
    now apply Z.eqb_eq.
Qed.


Lemma push_move_history (s : State R) (m : Move) :
  move_stack (push_move s m) = move_stack s \/
  exists top, move_stack (push_move s m) = move_stack s ++ [(m, Some top)].
Proof.
  unfold push_move. destruct (push (board s) m) as [b|b]; [|now left].
  cbn [board set_board]. destruct (peek b) as [top|]; [|now left].
  right. exists top. rewrite draw_board_eq. reflexivity.
Qed.

(** X7.  [engine_move_if_needed] starts a worker exactly when the engine has
    the side to move, the game is not over and the engine runs or could
    be launched; otherwise the worker count stays.  It never touches the
    timer queue or the selection. *)
Theorem engine_request_guards (s : State R) (launched : bool) :
  (workers (engine_move_if_needed s launched) = S (workers s) <->
   engine_to_move s = true /\ is_game_over (board s) = false /\
   (engine s = true \/ launched = true)) /\
  (workers (engine_move_if_needed s launched) = S (workers s) \/
   workers (engine_move_if_needed s launched) = workers s) /\
  scheduled (engine_move_if_needed s launched) = scheduled s /\
  selected_sq (engine_move_if_needed s launched) = selected_sq s.
Proof.
  unfold engine_move_if_needed, engine_to_move, start_engine.
  destruct (engine_side s) as [side|], (is_game_over (board s)),
    (engine s) eqn:He, launched; cbn;
    try destruct (Bool.eqb (turn (board s)) side); cbn; rewrite ?He; cbn;
    repeat split; auto; intros;
    repeat match goal with
           | H : _ /\ _ |- _ => destruct H
           | H : _ \/ _ |- _ => destruct H
           end; try discriminate; try lia; auto.
Qed.

(** X8.  Play vs Engine: the think time changes only when the dialog gives
    one; the engine is launched if it was not running; an engine check is
    scheduled only when the engine gets White with White to move; board,
    history and selection stay.  When the engine gets Black with Black to
    move and nothing is pending, the state is stalled. *)
Theorem play_vs_engine_effects (s : State R) (yes : bool) (time : option float)
    (launched : bool) :
  let s' := ask_play_engine s yes time launched in
  engine_think_time s' = match time with Some t => t | None => engine_think_time s end /\
  engine s' = engine s || launched /\
  scheduled s' = (if negb yes && Bool.eqb (turn (board s)) WHITE
                  then scheduled s ++ [engine_move_if_needed_cb] else scheduled s) /\
  board s' = board s /\ move_stack s' = move_stack s /\
  selected_sq s' = selected_sq s /\ legal_targets s' = legal_targets s /\
  (yes = true -> turn (board s) = BLACK -> scheduled s = [] -> workers s = 0%nat ->
   stalled s').
Proof.
  unfold ask_play_engine, start_engine, stalled, engine_to_move.
  destruct yes, time as [t|], (engine s) eqn:He, launched;
    cbn; rewrite ?He; cbn;
    destruct (turn (board s)) eqn:Hturn; cbn; rewrite ?Hturn;
    repeat split; auto; intros; try discriminate; auto.
Qed.

End Shell.

(** ** Moves, selection and the engine's turn *)

Section Play.
Context {R : Rules} {ok : RulesOk R}.

(** X9.  With a piece selected and the human to move, a click on a square the
    selected piece may legally move to (as a bare from-to move) plays the
    move: it is pushed on the board, one entry with the move and the top
    of the board's stack is added to the history, the selection is
    cleared, the status line is redrawn for the new board and one engine
    check is scheduled. *)
Theorem click_on_target_plays_move (s : State R) (sel sq : Square) :
  0 <= sq < 64 -> engine_to_move s = false -> selected_sq s = Some sel ->
  is_legal (board s) {| from_square := sel; to_square := sq; promotion := None |} = true ->
  exists b' top,
    push (board s) {| from_square := sel; to_square := sq; promotion := None |} = Returned b' /\
    peek b' = Some top /\
    board (click_square s sq) = b' /\
    move_stack (click_square s sq)
    = move_stack s ++ [({| from_square := sel; to_square := sq; promotion := None |}, Some top)] /\
    selected_sq (click_square s sq) = None /\
    legal_targets (click_square s sq) = [] /\
    status_var (click_square s sq) = status_of b' /\
    scheduled (click_square s sq) = scheduled s ++ [engine_move_if_needed_cb].
Proof.
  intros Hsq Hturn Hsel Hlegal.
  destruct (push_legal _ _ Hlegal) as [b' Hpush].
  destruct (peek_after_push _ _ _ Hpush) as [top Hpeek].
  exists b', top.
  rewrite (click_square_unfold s sq Hsq), Hturn, Hsel, Hlegal.
  rewrite (legal_bare_not_promotion s sel sq Hlegal).
  unfold push_move. rewrite Hpush. cbn [board set_board]. rewrite Hpeek.
  rewrite !draw_board_eq. cbn. auto 10.
Qed.

(** X10.  No click ever adds a move with a promotion piece to the history: the
    branch of [on_click] that builds the queen promotion is never taken. *)
Theorem clicks_never_push_promotion (s : State R) (x y : Z) (e : HistoryEntry) :
  In e (move_stack (on_click s x y)) ->
  In e (move_stack s) \/ promotion (fst e) = None.
Proof.
  unfold on_click.
  destruct ((x / SQUARE_SIZE <? 0) || (x / SQUARE_SIZE >? 7)
            || (y / SQUARE_SIZE <? 0) || (y / SQUARE_SIZE >? 7)); [now left|].
  destruct (engine_to_move s); [now left|].
  set (sq := rc_to_sq (y / SQUARE_SIZE) (x / SQUARE_SIZE) (flip s)).
  destruct (selected_sq s) as [sel|].
  - destruct (is_legal (board s) _) eqn:Hlegal.
    + rewrite (legal_bare_not_promotion s sel sq Hlegal).
      cbn [move_stack after]. rewrite move_stack_draw_board.
      destruct (push_move_history s {| from_square := sel; to_square := sq; promotion := None |})
        as [->|[top ->]]; [now left|].
      rewrite in_app_iff. intros [Hin|[<-|[]]]; [now left|now right].
    + destruct (own_piece s _); cbn; rewrite move_stack_draw_board; cbn; now left.
  - destruct (own_piece s _); rewrite ?move_stack_draw_board; now left.
Qed.

Lemma selection_sound_frame (s s' : State R) :
  board s' = board s -> selected_sq s' = selected_sq s ->
  legal_targets s' = legal_targets s ->
  selection_sound s -> selection_sound s'.
Proof.
  unfold selection_sound, own_piece, targets_from. intros -> -> ->. auto.
Qed.

Lemma on_click_selection_sound (s : State R) (x y : Z) :
  selection_sound s -> selection_sound (on_click s x y).
Proof.
  intros Hs. unfold on_click.
  destruct ((x / SQUARE_SIZE <? 0) || (x / SQUARE_SIZE >? 7)
            || (y / SQUARE_SIZE <? 0) || (y / SQUARE_SIZE >? 7)) eqn:Hout;
    [assumption|].
  rewrite !orb_false_iff, !Z.ltb_ge, !Z.gtb_ltb, !Z.ltb_ge in Hout.
  destruct (engine_to_move s); [assumption|].
  assert (Hsq : 0 <= rc_to_sq (y / SQUARE_SIZE) (x / SQUARE_SIZE) (flip s) < 64)
    by (apply rc_to_sq_range; lia).
  set (sq := rc_to_sq (y / SQUARE_SIZE) (x / SQUARE_SIZE) (flip s)) in *.
  destruct (selected_sq s) as [sel|] eqn:Hsel.
  - destruct (is_legal (board s) _) eqn:Hlegal.
    + rewrite (legal_bare_not_promotion s sel sq Hlegal).
      destruct (push_legal _ _ Hlegal) as [b' Hpush].
      destruct (peek_after_push _ _ _ Hpush) as [top Hpeek].
      unfold push_move. rewrite Hpush. cbn [board set_board]. rewrite Hpeek.
      rewrite !draw_board_eq. unfold selection_sound. reflexivity.
    + destruct (own_piece s _) eqn:Hown; rewrite draw_board_eq;
        unfold selection_sound; cbn; [|reflexivity].
      repeat split; try apply Hsq. exact Hown.
  - destruct (own_piece s _) eqn:Hown; [|assumption].
    rewrite draw_board_eq. unfold selection_sound. cbn.
    repeat split; try apply Hsq. exact Hown.
Qed.

Lemma selection_sound_step (s : State R) (e : Event) :
  selection_sound s -> quiet_handover s e = true -> selection_sound (step s e).
Proof.
  intros Hs Hev.
  destruct e as [ | | | yes time launched | x y | i launched | r | ]; cbn [step].
  - unfold new_game. rewrite !draw_board_eq. cbn.
    destruct (engine_side s) as [c|]; [destruct (Bool.eqb c WHITE)|]; reflexivity.
  - unfold undo_move.
    destruct (List.length (move_stack s) =? 0)%nat; [assumption|].
    destruct (pop (board s)); [|assumption].
    rewrite draw_board_eq. reflexivity.
  - apply (selection_sound_frame s); [| | |assumption];
      unfold flip_board; rewrite draw_board_eq; reflexivity.
  - apply (selection_sound_frame s); [| | |assumption];
      unfold ask_play_engine, start_engine; destruct yes, time;
      split_cases; reflexivity.
  - now apply on_click_selection_sound.
  - destruct (take_callback (scheduled s) i) as [[cb rest]|]; [|assumption].
    apply (selection_sound_frame s); [| | |assumption]; destruct cb;
      cbn [run_callback]; rewrite ?draw_board_eq; try reflexivity;
      unfold engine_move_if_needed, start_engine; split_cases; reflexivity.
  - destruct (workers s) as [|n] eqn:Hw; [assumption|].
    destruct r as [ | | [m|]]; try exact Hs.
    cbn in Hev. rewrite Hw in Hev.
    unfold selection_sound in Hs.
    destruct (selected_sq s) as [sel|] eqn:Hsel; [discriminate Hev|].
    unfold think_and_move. cbn [board set_workers].
    destruct (push (board s) m); unfold selection_sound; cbn; rewrite Hsel; exact Hs.
  - apply (selection_sound_frame s); [| | |assumption];
      unfold on_close, stop_engine; split_cases; reflexivity.
Qed.

(** X11.  Along every run of events from start-up in which no worker hands
    over a move while a square is selected, the selection fits the board
    after every event: either nothing is selected and nothing is marked,
    or the selected square is on the grid, holds a piece of the side to
    move, and exactly its destinations are marked.  This covers every run
    without engine moves. *)
Theorem selection_stays_sound (es : list Event) :
  quiet_handovers (init (R := R)) es = true ->
  selection_sound (run (init (R := R)) es).
Proof.
  assert (Hgen : forall s : State R,
             selection_sound s -> quiet_handovers s es = true ->
             selection_sound (run s es)).
  { induction es as [|e es IH]; intros s Hs Hes; cbn; [assumption|].
    cbn in Hes. apply andb_true_iff in Hes as [He Hes].
    apply IH; [now apply selection_sound_step|assumption]. }
  apply Hgen. unfold init. rewrite draw_board_eq. reflexivity.
Qed.

Lemma stalled_step (s : State R) (e : Event) :
  stalled s -> passive e = true ->
  board (step s e) = board s /\ move_stack (step s e) = move_stack s /\
  stalled (step s e).
Proof.
  intros (Hturn & Hq & Hw) Hev.
  destruct e as [ | | | yes time launched | x y | i launched | r | ];
    try discriminate Hev; cbn [step].
  - unfold flip_board. rewrite draw_board_eq. unfold stalled, engine_to_move in *.
    cbn. auto.
  - assert (Hsame : on_click s x y = s).
    { unfold on_click. rewrite Hturn. now destruct (_ || _). }
    rewrite Hsame. unfold stalled. auto.
  - rewrite Hq. destruct i; cbn; unfold stalled; auto.
  - rewrite Hw. unfold stalled. auto.
  - unfold on_close, stop_engine. destruct (engine s);
      unfold stalled, engine_to_move in *; cbn; auto.
Qed.

(** X12.  Once it is the engine's turn with no callback pending and no worker
    running, nothing but New Game, Undo or Play vs Engine moves the game
    on: clicks, flips, timers, worker events and closing leave board and
    history as they are, and the engine is never asked. *)
Theorem stalled_stays_stalled (es : list Event) (s : State R) :
  stalled s -> forallb passive es = true ->
  board (run s es) = board s /\ move_stack (run s es) = move_stack s /\
  stalled (run s es).
Proof.
  revert s. induction es as [|e es IH]; intros s Hs Hes; cbn.
  - auto.
  - cbn in Hes. apply andb_true_iff in Hes as [He Hes].
    destruct (stalled_step s e Hs He) as (Hb & Hh & Hs').
    destruct (IH (step s e) Hs' Hes) as (IHb & IHh & IHs).
    unfold run in *. rewrite IHb, IHh. auto.
Qed.

(** X13.  Undo never asks the engine to move.  When it hands the turn to the
    engine with nothing pending, the state is stalled and every click on
    it is ignored. *)
Theorem undo_leaves_engine_turn_stalled (s : State R) :
  scheduled (undo_move s) = scheduled s /\
  workers (undo_move s) = workers s /\
  (scheduled s = [] -> workers s = 0%nat -> engine_to_move (undo_move s) = true ->
   stalled (undo_move s) /\ forall x y, on_click (undo_move s) x y = undo_move s).
Proof.
  assert (Hframe : scheduled (undo_move s) = scheduled s /\
                   workers (undo_move s) = workers s).
  { unfold undo_move. destruct (List.length (move_stack s) =? 0)%nat; [auto|].
    destruct (pop (board s)); [|auto]. rewrite draw_board_eq. auto. }
  destruct Hframe as [Hq Hw]. split; [assumption|split; [assumption|]].
  intros Hq0 Hw0 Hturn. split.
  - unfold stalled. repeat split; congruence.
  - intros x y. unfold on_click at 1. rewrite Hturn. now destruct (_ || _).
Qed.

Lemma status_fresh_frame (s s' : State R) :
  board s' = board s -> status_var s' = status_var s ->
  status_fresh s -> status_fresh s'.
Proof. unfold status_fresh. intros -> ->. auto. Qed.

Lemma take_callback_keeps (q : list Callback) (i : nat) (cb : Callback)
    (rest : list Callback) (c : Callback) :
  take_callback q i = Some (cb, rest) -> In c q -> c = cb \/ In c rest.
Proof.
  revert i rest. induction q as [|x q IH]; intros i rest Htake Hin; [contradiction|].
  destruct i as [|i]; cbn in Htake.
  - injection Htake as <- <-. destruct Hin as [<-|Hin]; auto.
  - destruct (take_callback q i) as [[c' rest']|] eqn:Hq; [|discriminate].
    injection Htake as <- <-. destruct Hin as [<-|Hin]; [right; now left|].
    destruct (IH i rest' Hq Hin) as [->|Hr]; [now left|right; now right].
Qed.

Lemma on_click_fresh_or_same (s : State R) (x y : Z) :
  on_click s x y = s \/ status_fresh (on_click s x y).
Proof.
  unfold on_click.
  destruct (_ || _); [now left|].
  destruct (engine_to_move s); [now left|].
  destruct (selected_sq s).
  - right. rewrite draw_board_eq. reflexivity.
  - destruct (own_piece s _); [|now left].
    right. rewrite draw_board_eq. reflexivity.
Qed.

(** The status line is up to date, or its redraw is in the timer queue. *)
Lemma fresh_or_pending_step (s : State R) (e : Event) :
  status_fresh s \/ In draw_board_cb (scheduled s) ->
  handover_returns s e = true ->
  status_fresh (step s e) \/ In draw_board_cb (scheduled (step s e)).
Proof.
  intros Hs Hev.
  destruct e as [ | | | yes time launched | x y | i launched | r | ]; cbn [step].
  - left. unfold new_game. rewrite !draw_board_eq. cbn.
    destruct (engine_side s) as [c|]; [destruct (Bool.eqb c WHITE)|]; reflexivity.
  - unfold undo_move.
    destruct (List.length (move_stack s) =? 0)%nat; [assumption|].
    destruct (pop (board s)); [|assumption].
    left. rewrite draw_board_eq. reflexivity.
  - left. unfold flip_board. rewrite draw_board_eq. reflexivity.
  - destruct Hs as [Hs|Hs].
    + left. apply (status_fresh_frame s); [| |assumption];
        unfold ask_play_engine, start_engine; destruct yes, time;
        split_cases; reflexivity.
    + right. unfold ask_play_engine, start_engine. destruct yes, time;
        split_cases; cbn; rewrite ?in_app_iff; auto.
  - destruct (on_click_fresh_or_same s x y) as [->|Hf]; [assumption|now left].
  - destruct (take_callback (scheduled s) i) as [[cb rest]|] eqn:Htake; [|assumption].
    destruct cb; cbn [run_callback]; [|left; rewrite draw_board_eq; reflexivity].
    destruct Hs as [Hs|Hs].
    + left. apply (status_fresh_frame s); [| |assumption];
        unfold engine_move_if_needed, start_engine; split_cases; reflexivity.
    + right. destruct (take_callback_keeps _ _ _ _ _ Htake Hs) as [Heq|Hin];
        [discriminate Heq|].
      unfold engine_move_if_needed, start_engine; split_cases; cbn; exact Hin.
  - destruct (workers s) as [|n] eqn:Hw; [assumption|].
    destruct r as [ | | [m|]]; try exact Hs.
    cbn in Hev. rewrite Hw in Hev. unfold push_returns in Hev.
    right. unfold think_and_move. cbn [board set_workers].
    destruct (push (board s) m); [|discriminate]. cbn.
    apply in_or_app. right. now left.
  - destruct Hs as [Hs|Hs].
    + left. apply (status_fresh_frame s); [| |assumption];
        unfold on_close, stop_engine; split_cases; reflexivity.
    + right. unfold on_close, stop_engine. split_cases; exact Hs.
Qed.

Lemma fresh_step (s : State R) (e : Event) :
  status_fresh s -> hands_over_move e = false -> status_fresh (step s e).
Proof.
  intros Hs Hev.
  destruct e as [ | | | yes time launched | x y | i launched | r | ]; cbn [step].
  - unfold new_game. rewrite !draw_board_eq. cbn.
    destruct (engine_side s) as [c|]; [destruct (Bool.eqb c WHITE)|]; reflexivity.
  - unfold undo_move.
    destruct (List.length (move_stack s) =? 0)%nat; [assumption|].
    destruct (pop (board s)); [|assumption].
    rewrite draw_board_eq. reflexivity.
  - unfold flip_board. rewrite draw_board_eq. reflexivity.
  - apply (status_fresh_frame s); [| |assumption];
      unfold ask_play_engine, start_engine; destruct yes, time;
      split_cases; reflexivity.
  - destruct (on_click_fresh_or_same s x y) as [->|Hf]; assumption.
  - destruct (take_callback (scheduled s) i) as [[cb rest]|]; [|assumption].
    destruct cb; cbn [run_callback]; [|rewrite draw_board_eq; reflexivity].
    apply (status_fresh_frame s); [| |assumption];
      unfold engine_move_if_needed, start_engine; split_cases; reflexivity.
  - destruct (workers s) as [|n]; [assumption|].
    destruct r as [ | | [m|]]; try discriminate Hev; exact Hs.
  - apply (status_fresh_frame s); [| |assumption];
      unfold on_close, stop_engine; split_cases; reflexivity.
Qed.

(** X14.  Along every run of events from start-up in which each move handed
    over by a worker is pushed without an exception, the status line says
    what a redraw would say or a redraw is waiting in the timer queue;
    along a run without any hand-over it always says what a redraw would
    say.  A worker that pushes a move leaves the status line as it was and
    puts the redraw last in the queue. *)
Theorem status_line_stays_fresh :
  (forall es : list Event,
     handovers_return (init (R := R)) es = true ->
     status_fresh (run (init (R := R)) es) \/
     In draw_board_cb (scheduled (run (init (R := R)) es))) /\
  (forall es : list Event,
     no_handover es = true -> status_fresh (run (init (R := R)) es)) /\
  (forall (s : State R) (m : Move),
     push_returns (board s) m = true ->
     status_var (think_and_move s (play_returns (Some m))) = status_var s /\
     scheduled (think_and_move s (play_returns (Some m))) = scheduled s ++ [draw_board_cb]).
Proof.
  assert (Hinit : status_fresh (init (R := R))).
  { unfold init. rewrite draw_board_eq. reflexivity. }
  split; [|split].
  - intros es.
    assert (Hgen : forall s : State R,
               status_fresh s \/ In draw_board_cb (scheduled s) ->
               handovers_return s es = true ->
               status_fresh (run s es) \/ In draw_board_cb (scheduled (run s es))).
    { induction es as [|e es IH]; intros s Hs Hes; cbn; [assumption|].
      cbn in Hes. apply andb_true_iff in Hes as [He Hes].
      apply IH; [now apply fresh_or_pending_step|assumption]. }
    intros Hes. apply Hgen; [now left|assumption].
  - intros es.
    assert (Hgen : forall s : State R,
               status_fresh s -> no_handover es = true -> status_fresh (run s es)).
    { induction es as [|e es IH]; intros s Hs Hes; cbn; [assumption|].
      cbn in Hes. apply andb_true_iff in Hes as [He Hes].
      apply negb_true_iff in He.
      apply IH; [now apply fresh_step|assumption]. }
    intros Hes. now apply Hgen.
  - intros s m Hret. unfold push_returns in Hret. unfold think_and_move.
    destruct (push (board s) m); [|discriminate]. cbn. auto.
Qed.

Lemma engine_wanted_step (s : State R) (e : Event) :
  engine_wanted s -> engine_wanted (step s e).
Proof.
  unfold engine_wanted. intros Hs.
  destruct e as [ | | | yes time launched | x y | i launched | r | ]; cbn [step].
  - rewrite engine_side_new_game. unfold new_game. rewrite draw_board_eq.
    destruct (engine_side _) as [c|]; [destruct (Bool.eqb c WHITE)|]; exact Hs.
  - rewrite engine_side_undo_move. unfold undo_move.
    destruct (_ =? _)%nat; [exact Hs|]. destruct (pop (board s)); [|exact Hs].
    rewrite draw_board_eq. exact Hs.
  - unfold flip_board. rewrite draw_board_eq. exact Hs.
  - intros _. unfold ask_play_engine, start_engine.
    destruct yes, time; split_cases; cbn in *; congruence.
  - rewrite engine_side_on_click. unfold on_click, push_move.
    split_cases; rewrite ?draw_board_eq; cbn; rewrite ?draw_board_eq; exact Hs.
  - destruct (take_callback (scheduled s) i) as [[cb rest]|]; [|exact Hs].
    destruct cb; cbn [run_callback]; [|rewrite draw_board_eq; exact Hs].
    unfold engine_move_if_needed, start_engine.
    destruct (engine_side (set_scheduled s rest)) as [side|] eqn:Hside; [|exact Hs].
    split_cases; cbn in *; intros; congruence.
  - destruct (workers s) as [|n]; [exact Hs|].
    rewrite engine_side_think_and_move. unfold think_and_move.
    split_cases; exact Hs.
  - unfold on_close, stop_engine. destruct (engine s) eqn:He; cbn; [discriminate|].
    rewrite He. discriminate.
Qed.

(** X15.  Whatever the user does from start, the engine process runs only
    after Play vs Engine has given it a side. *)
Theorem engine_runs_only_when_wanted (es : list Event) :
  engine_wanted (run (init (R := R)) es).
Proof.
  assert (Hgen : forall s : State R, engine_wanted s -> engine_wanted (run s es)).
  { induction es as [|e es IH]; intros s Hs; cbn; [assumption|].
    apply IH. now apply engine_wanted_step. }
  apply Hgen. unfold engine_wanted, init. rewrite draw_board_eq. discriminate.
Qed.

(** X16.  New Game does not cancel an engine request: a worker that was running
    still counts, and when it hands over its move, the move is pushed on
    the fresh board and becomes the first history entry. *)
Theorem engine_reply_lands_on_new_game (s : State R) (m : Move) (n : nat) :
  workers s = S n -> push_returns starting_board m = true ->
  workers (new_game s) = S n /\
  push starting_board m
  = Returned (board (step (new_game s) (WorkerDone (play_returns (Some m))))) /\
  move_stack (step (new_game s) (WorkerDone (play_returns (Some m)))) = [(m, None)].
Proof.
  intros Hw Hret.
  assert (Hnew : workers (new_game s) = S n /\ board (new_game s) = starting_board /\
                 move_stack (new_game s) = []).
  { unfold new_game. rewrite draw_board_eq. cbn.
    destruct (engine_side s) as [c|]; [destruct (Bool.eqb c WHITE)|]; cbn; auto. }
  destruct Hnew as (Hw' & Hb & Hh). split; [assumption|].
  cbn [step]. rewrite Hw'. unfold think_and_move. cbn [board set_workers].
  rewrite Hb. unfold push_returns in Hret.
  destruct (push starting_board m) as [b'|b']; [|discriminate].
  cbn. rewrite Hh. auto.
Qed.

End Play.

(** ** The picture *)

Lemma in_range (n : nat) (z : Z) : In z (Canvas.range n) <-> 0 <= z < Z.of_nat n.
Proof.
  unfold Canvas.range. rewrite in_map_iff. split.
  - intros (k & <- & Hk). apply in_seq in Hk. lia.
  - intros Hz. exists (Z.to_nat z). rewrite in_seq. split; lia.
Qed.

Lemma float_inset_low (k : Z) :
  0 <= k <= 7 ->
  PrimFloat.add (Canvas.to_float (k * SQUARE_SIZE))
                (PrimFloat.mul (Canvas.to_float SQUARE_SIZE) 0.25%float)
  = Canvas.to_float (k * SQUARE_SIZE + 15).
Proof.
  intros Hk.
  assert (Hc : k = 0 \/ k = 1 \/ k = 2 \/ k = 3 \/ k = 4 \/ k = 5 \/ k = 6 \/ k = 7) by lia.
  destruct Hc as [->|[->|[->|[->|[->|[->|[->| ->]]]]]]]; vm_compute; reflexivity.
Qed.

Lemma float_inset_high (k : Z) :
  0 <= k <= 7 ->
  PrimFloat.sub (Canvas.to_float (k * SQUARE_SIZE + SQUARE_SIZE))
                (PrimFloat.mul (Canvas.to_float SQUARE_SIZE) 0.25%float)
  = Canvas.to_float (k * SQUARE_SIZE + 45).
Proof.
  intros Hk.
  assert (Hc : k = 0 \/ k = 1 \/ k = 2 \/ k = 3 \/ k = 4 \/ k = 5 \/ k = 6 \/ k = 7) by lia.
  destruct Hc as [->|[->|[->|[->|[->|[->|[->| ->]]]]]]]; vm_compute; reflexivity.
Qed.

(** X19.  No piece is drawn as the fallback "?", and two different pieces never
    get the same glyph. *)
Theorem symbols_distinct (p q : Piece) :
  Canvas.symbol_of p <> "?" /\ (Canvas.symbol_of p = Canvas.symbol_of q -> p = q).
Proof.
  destruct p as [[] []], q as [[] []]; split; vm_compute;
    intros H; (reflexivity || discriminate H).
Qed.

Lemma symbols_distinct_witness :
  Canvas.symbol_of (Canvas.white KING) <> "?" /\
  (Canvas.symbol_of (Canvas.white KING) = Canvas.symbol_of (Canvas.white KING) ->
   Canvas.white KING = Canvas.white KING).
Proof. apply (symbols_distinct (Canvas.white KING) (Canvas.white KING)). Defined.

Section Picture.
Context {R : Rules}.

(** X17.  At either orientation every square of the board is painted as the
    60x60 cell clicks on it land in, light when file plus rank is odd and
    dark otherwise: a1 is dark whichever way the board faces. *)
Theorem squares_checkered (s : State R) (sq : Square) :
  0 <= sq < 64 ->
  let rc := sq_to_rc sq (flip s) in
  let x1 := snd rc * SQUARE_SIZE in
  let y1 := fst rc * SQUARE_SIZE in
  let paint := if (square_file sq + square_rank sq) mod 2 =? 1
               then Canvas.LIGHT_COLOR else Canvas.DARK_COLOR in
  In (Canvas.create_rectangle x1 y1 (x1 + SQUARE_SIZE) (y1 + SQUARE_SIZE) paint paint 1
        (Some (Canvas.sq_tag (fst rc) (snd rc))))
     (Canvas.canvas s).
Proof.
  intros Hsq rc x1 y1 paint.
  destruct (sq_to_rc_range sq (flip s) Hsq) as [Hrow Hcol]. fold rc in Hrow, Hcol.
  unfold Canvas.canvas. apply in_or_app. left.
  unfold Canvas.square_items. apply in_flat_map.
  exists (fst rc). split; [apply in_range; cbn; lia|].
  apply in_map_iff. exists (snd rc). split; [|apply in_range; cbn; lia].
  assert (Hpaint : Canvas.cell_color (fst rc) (snd rc) = paint).
  { unfold Canvas.cell_color, paint, rc, sq_to_rc.
    generalize (square_file sq) (square_rank sq). intros f r.
    destruct (flip s); cbn [fst snd];
      destruct (Z.eqb_spec ((f + r) mod 2) 1) as [H1|H1];
      match goal with
      | |- context [?a mod 2 =? 0] => destruct (Z.eqb_spec (a mod 2) 0) as [H0|H0]
      end; try reflexivity; exfalso; revert H0 H1;
      Z.div_mod_to_equations; lia. }
  rewrite Hpaint. reflexivity.
Qed.

(** X18.  Pieces and glyphs correspond: every piece on a square of the grid is
    drawn by its glyph at the middle of its cell, and every glyph on the
    canvas is the glyph of a piece, drawn where a click is translated to
    that piece's square. *)
Theorem pieces_drawn_where_clicked (s : State R) :
  (forall sq piece,
     0 <= sq < 64 -> piece_at (board s) sq = Some piece ->
     In (Canvas.create_text (fst (square_centre s sq)) (snd (square_centre s sq))
           (Canvas.symbol_of piece) (SQUARE_SIZE / 2) (Canvas.piece_tag sq))
        (Canvas.canvas s)) /\
  (forall x y txt size tag,
     In (Canvas.create_text x y txt size tag) (Canvas.canvas s) ->
     exists sq piece,
       0 <= sq < 64 /\ piece_at (board s) sq = Some piece /\
       txt = Canvas.symbol_of piece /\ tag = Canvas.piece_tag sq /\
       rc_to_sq (y / SQUARE_SIZE) (x / SQUARE_SIZE) (flip s) = sq).
Proof.
  split.
  - intros sq piece Hsq Hpiece. unfold Canvas.canvas.
    apply in_or_app. right. apply in_or_app. right. apply in_or_app. right.
    unfold Canvas.piece_items. apply in_flat_map. exists sq.
    split; [apply in_range; cbn; lia|].
    unfold Canvas.piece_item. rewrite Hpiece. left. reflexivity.
  - intros x y txt size tag Hin. unfold Canvas.canvas in Hin.
    rewrite !in_app_iff in Hin. destruct Hin as [Hin|[Hin|[Hin|Hin]]].
    + unfold Canvas.square_items in Hin. apply in_flat_map in Hin as (r & _ & Hin).
      apply in_map_iff in Hin as (c & Heq & _). discriminate Heq.
    + unfold Canvas.highlight_items in Hin.
      apply in_map_iff in Hin as (t & Heq & _). discriminate Heq.
    + unfold Canvas.selection_items in Hin.
      destruct (selected_sq s); [|contradiction].
      destruct Hin as [Heq|[]]. discriminate Heq.
    + unfold Canvas.piece_items in Hin. apply in_flat_map in Hin as (sq & Hsq & Hin).
      apply in_range in Hsq. cbn in Hsq.
      unfold Canvas.piece_item in Hin.
      destruct (piece_at (board s) sq) as [piece|] eqn:Hpiece; [|contradiction].
      destruct Hin as [Heq|[]]. injection Heq as <- <- <- <- <-.
      exists sq, piece. repeat split; try assumption; try lia.
      destruct (sq_to_rc_range sq (flip s)) as [Hrow Hcol]; [lia|].
      rewrite !centre_div by assumption. apply rc_to_sq_sq_to_rc. lia.
Qed.

(** X20.  The dot on a legal target is the target's cell shrunk by exactly 15
    pixels on every side: the float arithmetic of [draw_board] does not
    round. *)
Theorem highlight_dots_centred (s : State R) (t : Square) :
  0 <= t < 64 -> In t (legal_targets s) ->
  let rc := sq_to_rc t (flip s) in
  let x1 := snd rc * SQUARE_SIZE in
  let y1 := fst rc * SQUARE_SIZE in
  In (Canvas.create_oval (Canvas.to_float (x1 + 15)) (Canvas.to_float (y1 + 15))
        (Canvas.to_float (x1 + 45)) (Canvas.to_float (y1 + 45))
        Canvas.HIGHLIGHT_COLOR "")
     (Canvas.canvas s).
Proof.
  intros Ht Hin rc x1 y1.
  destruct (sq_to_rc_range t (flip s) Ht) as [Hrow Hcol]. fold rc in Hrow, Hcol.
  unfold Canvas.canvas. apply in_or_app. right. apply in_or_app. left.
  unfold Canvas.highlight_items. apply in_map_iff. exists t.
  split; [|assumption]. fold rc. cbv zeta.
  rewrite !float_inset_low, !float_inset_high by assumption. reflexivity.
Qed.

End Picture.

(** ** The further properties on real games *)

Lemma click_in_cell_hits_square_witness :
  rc_to_sq (365 / SQUARE_SIZE) (245 / SQUARE_SIZE) (flip fresh) = E2 /\
  on_click fresh 245 365 = click_square fresh E2.
Proof.
  apply (click_in_cell_hits_square fresh E2 245 365); vm_compute; split; congruence.
Defined.

Lemma click_off_board_ignored_witness : on_click e2_in_hand (-5) 10 = e2_in_hand.
Proof. apply (click_off_board_ignored e2_in_hand (-5) 10). left. lia. Defined.

Lemma flip_board_twice_witness : flip_board (flip_board e2_in_hand) = e2_in_hand.
Proof.
  apply (proj2 (proj2 (proj2 (flip_board_twice e2_in_hand)))).
  vm_compute. reflexivity.
Defined.

Lemma click_picks_up_piece_witness :
  selected_sq (click_square fresh E2) = Some E2 /\
  board (click_square fresh E2) = board fresh.
Proof.
  destruct (click_picks_up_piece fresh E2) as (Hsel & _ & Hb & _);
    try (vm_compute; reflexivity); [unfold E2; lia|].
  split; assumption.
Defined.


Lemma engine_request_guards_witness :
  workers (engine_move_if_needed engine_has_white true) = S (workers engine_has_white).
Proof.
  apply (proj1 (engine_request_guards engine_has_white true)).
  vm_compute. auto.
Defined.

Lemma play_vs_engine_effects_witness :
  stalled (ask_play_engine black_to_move true None true).
Proof.
  apply (play_vs_engine_effects black_to_move true None true);
    vm_compute; reflexivity.
Defined.

Lemma click_on_target_plays_move_witness :
  exists b' top,
    push (board e2_in_hand) {| from_square := E2; to_square := E4; promotion := None |}
    = Returned b' /\
    peek b' = Some top /\
    board (click_square e2_in_hand E4) = b' /\
    move_stack (click_square e2_in_hand E4)
    = move_stack e2_in_hand
      ++ [({| from_square := E2; to_square := E4; promotion := None |}, Some top)] /\
    selected_sq (click_square e2_in_hand E4) = None /\
    legal_targets (click_square e2_in_hand E4) = [] /\
    status_var (click_square e2_in_hand E4) = status_of b' /\
    scheduled (click_square e2_in_hand E4)
    = scheduled e2_in_hand ++ [engine_move_if_needed_cb].
Proof.
  apply (click_on_target_plays_move (ok := StandardChessFacts.rules_ok) e2_in_hand E2 E4);
    try (vm_compute; reflexivity). unfold E4. lia.
Defined.

Lemma clicks_never_push_promotion_witness :
  In (StandardChess.bare E2 E4, Some (StandardChess.bare E2 E4)) (move_stack e2_in_hand) \/
  promotion (fst (StandardChess.bare E2 E4, Some (StandardChess.bare E2 E4))) = None.
Proof.
  apply (clicks_never_push_promotion (ok := StandardChessFacts.rules_ok)
           e2_in_hand 270 270).
  vm_compute. left. reflexivity.
Defined.

Lemma selection_stays_sound_witness :
  selection_sound
    (run fresh [PlayVsEngine true None true; Click 270 390; Click 270 270;
                Timer 0 true;
                WorkerDone (play_returns (Some (StandardChess.bare E7 E5)));
                Timer 0 true; Click 390 450]).
Proof.
  apply (selection_stays_sound (ok := StandardChessFacts.rules_ok)
           [PlayVsEngine true None true; Click 270 390; Click 270 270;
            Timer 0 true;
            WorkerDone (play_returns (Some (StandardChess.bare E7 E5)));
            Timer 0 true; Click 390 450]).
  vm_compute. reflexivity.
Defined.

Lemma stalled_stays_stalled_witness :
  board (run reply_undone [Click 270 390; FlipBoard; Timer 0 true]) = board reply_undone /\
  move_stack (run reply_undone [Click 270 390; FlipBoard; Timer 0 true])
  = move_stack reply_undone /\
  stalled (run reply_undone [Click 270 390; FlipBoard; Timer 0 true]).
Proof.
  apply (stalled_stays_stalled [Click 270 390; FlipBoard; Timer 0 true] reply_undone).
  - vm_compute. auto.
  - reflexivity.
Defined.

Lemma undo_leaves_engine_turn_stalled_witness :
  stalled reply_undone /\ forall x y, on_click reply_undone x y = reply_undone.
Proof.
  apply (proj2 (proj2 (undo_leaves_engine_turn_stalled engine_replied)));
    vm_compute; reflexivity.
Defined.

Lemma status_line_stays_fresh_witness :
  (status_fresh engine_replied \/ In draw_board_cb (scheduled engine_replied)) /\
  status_fresh black_to_move.
Proof.
  destruct (status_line_stays_fresh (R := StandardChess.rules)) as (Hrun & Hquiet & _).
  split.
  - apply (Hrun [PlayVsEngine true None true; Click 270 390; Click 270 270;
                 Timer 0 true;
                 WorkerDone (play_returns (Some (StandardChess.bare E7 E5)));
                 Timer 0 true]).
    vm_compute. reflexivity.
  - apply (Hquiet [Click 270 390; Click 270 270; Timer 0 true]). reflexivity.
Defined.

Lemma engine_runs_only_when_wanted_witness :
  engine_wanted (run fresh [PlayVsEngine true None true; Close; NewGame; Timer 0 true]).
Proof.
  apply (engine_runs_only_when_wanted
           [PlayVsEngine true None true; Close; NewGame; Timer 0 true]).
Defined.

Lemma engine_reply_lands_on_new_game_witness :
  workers (new_game engine_thinking) = 1%nat /\
  move_stack (step (new_game engine_thinking)
                   (WorkerDone (play_returns (Some (StandardChess.bare E2 E4)))))
  = [(StandardChess.bare E2 E4, None)].
Proof.
  destruct (engine_reply_lands_on_new_game engine_thinking (StandardChess.bare E2 E4) 0)
    as (Hw & _ & Hh); try (vm_compute; reflexivity).
  split; assumption.
Defined.

Lemma squares_checkered_witness :
  In (Canvas.create_rectangle 0 420 60 480 Canvas.DARK_COLOR Canvas.DARK_COLOR 1
        (Some (Canvas.sq_tag 7 0)))
     (Canvas.canvas fresh).
Proof. apply (squares_checkered fresh 0). lia. Defined.

Lemma pieces_drawn_where_clicked_witness :
  In (Canvas.create_text 270 450 "♔" 30 (Canvas.piece_tag 4)) (Canvas.canvas fresh).
Proof.
  apply (proj1 (pieces_drawn_where_clicked fresh) 4 (Canvas.white KING));
    [lia|reflexivity].
Defined.

Lemma highlight_dots_centred_witness :
  In (Canvas.create_oval (Canvas.to_float 255) (Canvas.to_float 255)
        (Canvas.to_float 285) (Canvas.to_float 285) Canvas.HIGHLIGHT_COLOR "")
     (Canvas.canvas e2_in_hand).
Proof.
  apply (highlight_dots_centred e2_in_hand E4); [unfold E4; lia|].
  vm_compute. auto.
Defined.
